(** * mcp_router: the dispatch and background-execution engine

    A shallow embedding of [src/mcp_router/mcp_engine.py] and
    [src/mcp_router/types.py].  The engine object is an explicit record,
    the backends and the Python library functions the engine calls
    ([json.loads], [yaml.dump], [str], [uuid4], the MCP client session)
    form an interface [Environment] over an abstract [World], and every
    coroutine is a program in a small state/exception/event-log monad.
    Calls to [logger] change nothing the engine can observe and are left
    out. *)

From stdpp Require Import gmap strings list fin_maps pretty.
From Stdlib Require Import String Ascii.

Local Open Scope string_scope.
Set Warnings "-register-all".

(** ** Python values *)

(** A Python [float].  The engine does no arithmetic on the timeouts it is
    given: it formats them and hands them to [asyncio.timeout], so a float
    is carried by its [repr]. *)
Record float := Float { float_repr : string }.

(** JSON-like Python values ([json.loads] results, [model_dump] output,
    input schemas).  A [dict] keeps its insertion order. *)
Inductive PyVal :=
| PNone
| PBool (b : bool)
| PInt (z : Z)
| PFloat (f : float)
| PStr (s : string)
| PList (l : list PyVal)
| PDict (d : list (string * PyVal)).

Definition Dict := list (string * PyVal).

(** [d.pop(key, None)] for the value discarded. *)
Definition dict_pop (key : string) (d : Dict) : Dict :=
  List.filter (fun kv => negb (String.eqb (fst kv) key)) d.

(** [d[key]] read as an [option]. *)
Fixpoint dict_get (key : string) (d : Dict) : option PyVal :=
  match d with
  | [] => None
  | (k, v) :: d' => if String.eqb k key then Some v else dict_get key d'
  end.

Definition opt_str (o : option string) : PyVal :=
  match o with Some s => PStr s | None => PNone end.

(** [f"{o}"] for an [Optional[str]]. *)
Definition format_opt_str (o : option string) : string :=
  match o with Some s => s | None => "None" end.

(** [{"type": "text", "text": v}] *)
Definition text_block (v : PyVal) : Dict :=
  [("type", PStr "text"); ("text", v)].

(** ** Exceptions *)

Inductive PyExc :=
| ValueError (msg : string)
| KeyError (key : option string)
| JSONDecodeError (msg : string)
| TimeoutError
| CancelledError
| OtherException (cls msg : string).

(** [isinstance(e, Exception)]: [CancelledError] derives from
    [BaseException] only. *)
Definition is_Exception (e : PyExc) : bool :=
  match e with CancelledError => false | _ => true end.

(** [isinstance(e, asyncio.TimeoutError)] *)
Definition is_TimeoutError (e : PyExc) : bool :=
  match e with TimeoutError => true | _ => false end.

(** [isinstance(e, ValueError)]: [json.JSONDecodeError] is a subclass. *)
Definition is_ValueError (e : PyExc) : bool :=
  match e with ValueError _ | JSONDecodeError _ => true | _ => false end.

(** ** types.py *)

Record MCPStartupConfig := {
  command : string;
  args : list string;
  env : list (string * string)
}.

Record MCPServer := {
  name : string;
  description : string;
  timeout : float;
  startup : MCPStartupConfig
}.

Record MCPRouterConfig := { mcpServers : list MCPServer }.

Inductive BackgroundToolCallStatus := PENDING | COMPLETED | FAILED | TIMEOUT.

Global Instance BackgroundToolCallStatus_eq_dec : EqDecision BackgroundToolCallStatus.
Proof. solve_decision. Defined.

Record BackgroundToolCallResult := {
  status : BackgroundToolCallStatus;
  error_message : option string;
  results : option (list Dict)
}.

Definition is_terminal (s : BackgroundToolCallStatus) : bool :=
  match s with PENDING => false | _ => true end.

(** The member's value. *)
Definition status_value (s : BackgroundToolCallStatus) : string :=
  match s with
  | PENDING => "PENDING"
  | COMPLETED => "COMPLETED"
  | FAILED => "FAILED"
  | TIMEOUT => "TIMEOUT"
  end.

(** [f"{result.status}"].  The engine needs Python 3.11 ([asyncio.timeout],
    [typing.Self]), where formatting a member of a [(str, Enum)] class gives
    the class and member name. *)
Definition format_status (s : BackgroundToolCallStatus) : string :=
  "BackgroundToolCallStatus." ++ status_value s.

(** ** The MCP client library, as far as the engine looks into it *)

Definition Session := nat.
Definition Transport := nat.

Record Tool := {
  tool_name_of : string;
  tool_description : option string;
  inputSchema : PyVal
}.

Record ListToolsResult := { tools : list Tool }.

Record CallToolResult := {
  content : list Dict;      (* each block as its [model_dump()] *)
  isError : bool
}.

Record StdioServerParameters := {
  sp_command : string;
  sp_args : list string;
  sp_env : list (string * string)
}.

(** What [stack_handler] holds: the async contexts entered so far. *)
Inductive Resource :=
| StdioTransport (t : Transport)
| ClientSessionCtx (s : Session).

(** ** The engine object *)

Inductive TaskState :=
| TaskPending        (* scheduled or suspended in its await *)
| TaskCancelling     (* [cancel()] was requested, the task has not run since *)
| TaskFinished       (* the coroutine returned *)
| TaskCancelled.     (* the coroutine ended with [CancelledError] *)

Global Instance TaskState_eq_dec : EqDecision TaskState.
Proof. solve_decision. Defined.

Definition task_done (s : TaskState) : bool :=
  match s with TaskFinished | TaskCancelled => true | _ => false end.

(** An [asyncio.Task] wrapping one call of [background_tool_execution]:
    the arguments the coroutine was created with, and how far it got. *)
Record Task := {
  task_call_id : string;
  task_session : Session;
  task_tool_name : option string;
  task_tool_arguments : option PyVal;
  task_timeout : float;
  task_state : TaskState
}.

Definition set_task_state (st : TaskState) (t : Task) : Task :=
  {| task_call_id := task_call_id t;
     task_session := task_session t;
     task_tool_name := task_tool_name t;
     task_tool_arguments := task_tool_arguments t;
     task_timeout := task_timeout t;
     task_state := st |}.

Record MCPEngine := {
  hmap_mcp_server_to_session : gmap string Session;
  hmap_call_id_to_results : gmap string BackgroundToolCallResult;
  background_tasks : list Task;
  stack_handler : list Resource       (* most recently entered first *)
}.

(** [MCPEngine()] followed by [__aenter__]. *)
Definition new_engine : MCPEngine :=
  {| hmap_mcp_server_to_session := ∅;
     hmap_call_id_to_results := ∅;
     background_tasks := [];
     stack_handler := [] |}.

(** ** Observable events *)

Inductive Event :=
| EvStdioClient (p : StdioServerParameters)
| EvSessionEnter (t : Transport)
| EvInitialize (s : Session)
| EvListTools (s : Session)
| EvCallTool (s : Session) (tool : option string) (arguments : option PyVal)
| EvCreateTask (call_id : string)
| EvTableSet (call_id : string) (st : BackgroundToolCallStatus)
| EvTableDel (call_id : string)
| EvCancel (call_id : string)
| EvTaskDone (call_id : string) (st : TaskState)
| EvRelease (r : Resource)
| EvRunAsync (transport : string) (host : option string) (port : option Z).

(** An event that reaches a backend. *)
Definition contacts_backend (e : Event) : bool :=
  match e with
  | EvStdioClient _ | EvSessionEnter _ | EvInitialize _
  | EvListTools _ | EvCallTool _ _ _ => true
  | _ => false
  end.

(** ** What the engine needs from outside

    The backends, the clock and the library functions, over a [World] that
    each call may change: a backend may answer differently the next time. *)

Class Environment (World : Type) := {
  (* json.loads: the decoded value, or the message of the JSONDecodeError *)
  json_loads : string -> string + PyVal;
  (* yaml.dump(_, sort_keys=False) *)
  yaml_dump : PyVal -> string;
  (* str(e) *)
  py_str : PyExc -> string;
  (* str(uuid4()) *)
  uuid4 : World -> string * World;
  (* stdio_client(params).__aenter__() *)
  stdio_client : StdioServerParameters -> World -> (PyExc + Transport) * World;
  (* ClientSession(reader, writer).__aenter__() *)
  client_session : Transport -> World -> (PyExc + Session) * World;
  (* session.initialize() *)
  initialize : Session -> World -> (PyExc + unit) * World;
  (* session.list_tools() *)
  list_tools : Session -> World -> (PyExc + ListToolsResult) * World;
  (* session.call_tool(name=..., arguments=...) *)
  call_tool : Session -> option string -> option PyVal -> World ->
              (PyExc + CallToolResult) * World;
  (* asyncio.timeout(delay): does the deadline pass before the operation
     awaited next completes? *)
  deadline_passes : float -> World -> bool * World;
  (* self.app.run_async(transport=..., host=..., port=...): serves until the
     front end stops *)
  run_async : string -> option string -> option Z -> World -> (PyExc + unit) * World;
  (* pydantic validating a list against [List[CallToolResult]], the type of
     the field [results] in types.py: the models it builds, or the text of
     the ValidationError *)
  validate_results : list Dict -> string + list Dict;
  (* an empty list is valid *)
  validate_results_nil : validate_results [] = inr [];
  (* [content] is a required field of [CallToolResult] *)
  validate_results_content l d :
    In d l -> dict_get "content" d = None -> exists msg, validate_results l = inl msg
}.

(** ** Programs: state, exceptions and an event log *)

Record Machine (World : Type) := {
  engine : MCPEngine;
  world : World
}.
Arguments engine {World} _.
Arguments world {World} _.

Record Run (World A : Type) := {
  outcome : PyExc + A;
  after : Machine World;
  events : list Event
}.
Arguments outcome {World A} _.
Arguments after {World A} _.
Arguments events {World A} _.

Definition Prog (World A : Type) : Type := Machine World -> Run World A.

Definition ret {World A} (a : A) : Prog World A :=
  fun m => {| outcome := inr a; after := m; events := [] |}.

Definition raise {World A} (e : PyExc) : Prog World A :=
  fun m => {| outcome := inl e; after := m; events := [] |}.

Definition bind {World A B} (p : Prog World A) (k : A -> Prog World B) : Prog World B :=
  fun m =>
    match p m with
    | {| outcome := inl e; after := m'; events := evs |} =>
        {| outcome := inl e; after := m'; events := evs |}
    | {| outcome := inr a; after := m'; events := evs |} =>
        match k a m' with
        | {| outcome := o; after := m''; events := evs' |} =>
            {| outcome := o; after := m''; events := evs ++ evs' |}
        end
    end.

Declare Scope prog_scope.
Delimit Scope prog_scope with prog.
Notation "x <- p ;; k" := (bind p (fun x => k))
  (at level 100, p at next level, right associativity) : prog_scope.
Notation "p ;; k" := (bind p (fun _ => k))
  (at level 100, right associativity) : prog_scope.

(** [try: p  except ...: ...]: [handler e = None] when no clause matches [e]. *)
Definition try_except {World A} (p : Prog World A)
    (handler : PyExc -> option (Prog World A)) : Prog World A :=
  fun m =>
    match p m with
    | {| outcome := inr a; after := m'; events := evs |} =>
        {| outcome := inr a; after := m'; events := evs |}
    | {| outcome := inl e; after := m'; events := evs |} =>
        match handler e with
        | None => {| outcome := inl e; after := m'; events := evs |}
        | Some h =>
            match h m' with
            | {| outcome := o; after := m''; events := evs' |} =>
                {| outcome := o; after := m''; events := evs ++ evs' |}
            end
        end
    end.

(** How a task ended, for the event loop that ran it. *)
Definition attempt {World A} (p : Prog World A) : Prog World (PyExc + A) :=
  fun m =>
    match p m with
    | {| outcome := o; after := m'; events := evs |} =>
        {| outcome := inr o; after := m'; events := evs |}
    end.

Definition emit {World} (e : Event) : Prog World unit :=
  fun m => {| outcome := inr tt; after := m; events := [e] |}.

Definition get_engine {World} : Prog World MCPEngine :=
  fun m => {| outcome := inr (engine m); after := m; events := [] |}.

Definition put_engine {World} (e : MCPEngine) : Prog World unit :=
  fun m => {| outcome := inr tt;
              after := {| engine := e; world := world m |};
              events := [] |}.

Definition from_world {World A} (f : World -> A * World) : Prog World A :=
  fun m =>
    let '(a, w) := f (world m) in
    {| outcome := inr a; after := {| engine := engine m; world := w |};
       events := [] |}.

Definition call_world {World A} (f : World -> (PyExc + A) * World) : Prog World A :=
  fun m =>
    let '(r, w) := f (world m) in
    {| outcome := r; after := {| engine := engine m; world := w |};
       events := [] |}.

(** The task and the [asyncio.timeout] block an [await] runs in. *)
Record AwaitCtx := {
  cancel_requested : bool;
  deadline : option float
}.

Definition no_ctx : AwaitCtx := {| cancel_requested := false; deadline := None |}.

Local Open Scope prog_scope.

(** [await op]: a task whose cancellation was requested before it ran gets
    [CancelledError] at its first step, before the operation is entered.
    Otherwise the operation is entered, logged as [ev]; inside
    [asyncio.timeout] the deadline may pass before it completes, the
    operation is then interrupted and the block raises [TimeoutError];
    otherwise its result comes back. *)
Definition await `{Environment World} {A} (ctx : AwaitCtx) (ev : Event)
    (op : World -> (PyExc + A) * World) : Prog World A :=
  if cancel_requested ctx then raise CancelledError
  else
    emit ev;;
    expired <- match deadline ctx with
               | Some delay => from_world (deadline_passes delay)
               | None => ret false
               end;;
    if (expired : bool) then raise TimeoutError
    else call_world op.

(** ** mcp_engine.py *)

Section Engine.
Context {World : Type} `{Env : Environment World}.

Abbreviation Coro := (Prog World).

(** *** Field updates of [self] *)

Definition set_registry (k : string) (s : Session) : Coro unit :=
  e <- get_engine;;
  put_engine
    {| hmap_mcp_server_to_session := <[k := s]> (hmap_mcp_server_to_session e);
       hmap_call_id_to_results := hmap_call_id_to_results e;
       background_tasks := background_tasks e;
       stack_handler := stack_handler e |}.

(** [self.hmap_call_id_to_results[call_id] = r] *)
Definition table_set (call_id : string) (r : BackgroundToolCallResult) : Coro unit :=
  e <- get_engine;;
  put_engine
    {| hmap_mcp_server_to_session := hmap_mcp_server_to_session e;
       hmap_call_id_to_results := <[call_id := r]> (hmap_call_id_to_results e);
       background_tasks := background_tasks e;
       stack_handler := stack_handler e |};;
  emit (EvTableSet call_id (status r)).

(** [del self.hmap_call_id_to_results[call_id]] *)
Definition table_del (call_id : string) : Coro unit :=
  e <- get_engine;;
  put_engine
    {| hmap_mcp_server_to_session := hmap_mcp_server_to_session e;
       hmap_call_id_to_results := delete call_id (hmap_call_id_to_results e);
       background_tasks := background_tasks e;
       stack_handler := stack_handler e |};;
  emit (EvTableDel call_id).

Definition set_background_tasks (ts : list Task) : Coro unit :=
  e <- get_engine;;
  put_engine
    {| hmap_mcp_server_to_session := hmap_mcp_server_to_session e;
       hmap_call_id_to_results := hmap_call_id_to_results e;
       background_tasks := ts;
       stack_handler := stack_handler e |}.

Definition set_stack_handler (rs : list Resource) : Coro unit :=
  e <- get_engine;;
  put_engine
    {| hmap_mcp_server_to_session := hmap_mcp_server_to_session e;
       hmap_call_id_to_results := hmap_call_id_to_results e;
       background_tasks := background_tasks e;
       stack_handler := rs |}.

(** [await self.stack_handler.enter_async_context(cm)]: the context is
    put on the stack once it has been entered. *)
Definition enter_async_context {A} (ctx : AwaitCtx) (ev : Event)
    (enter : World -> (PyExc + A) * World) (res : A -> Resource) : Coro A :=
  a <- await ctx ev enter;;
  e <- get_engine;;
  set_stack_handler (res a :: stack_handler e);;
  ret a.

(** [d[key]] on a dict with [str] keys, [key] possibly [None]. *)
Definition subscript {V} (d : gmap string V) (key : option string) : Coro V :=
  match key ≫= (d !!.) with
  | Some v => ret v
  | None => raise (KeyError key)
  end.

(** *** start_engine *)

Definition supported_transports : list string := ["http"; "stdio"].

Definition start_engine (transport : string) (host : option string)
    (port : option Z) : Coro unit :=
  if negb (existsb (String.eqb transport) supported_transports) then
    raise (ValueError ("Unsupported transport: " ++ transport ++
                       ", value must be one of ['http', 'stdio']"))
  else
    (if String.eqb transport "http" then
       await no_ctx (EvRunAsync transport host port) (run_async transport host port)
     else ret tt);;
    await no_ctx (EvRunAsync transport None None) (run_async transport None None).

(** *** start_mcp_server *)

Definition start_mcp_server (mcp_server : MCPServer) : Coro (option Session) :=
  let server_params :=
    {| sp_command := command (startup mcp_server);
       sp_args := args (startup mcp_server);
       sp_env := env (startup mcp_server) |} in
  let timeout := timeout mcp_server in
  try_except
    (let ctx := {| cancel_requested := false; deadline := Some timeout |} in
     stdio_transport <- enter_async_context ctx (EvStdioClient server_params)
                          (stdio_client server_params) StdioTransport;;
     session <- enter_async_context ctx (EvSessionEnter stdio_transport)
                  (client_session stdio_transport) ClientSessionCtx;;
     await ctx (EvInitialize session) (initialize session);;
     result <- await ctx (EvListTools session) (list_tools session);;
     let number_of_tools := List.length (tools result) in
     ret (Some session))
    (fun e =>
       if is_TimeoutError e then Some (ret None)
       else if is_Exception e then Some (ret None)
       else None).

(** *** start_all_mcp_servers *)

Definition newline : string := String (ascii_of_nat 10) "".

(** [sep.join(l)] *)
Fixpoint join (sep : string) (l : list string) : string :=
  match l with
  | [] => ""
  | [x] => x
  | x :: l' => x ++ sep ++ join sep l'
  end.

Definition server_info (mcp_server : MCPServer) (number_of_tools : nat) : string :=
  yaml_dump (PDict [("name", PStr (name mcp_server));
                    ("description", PStr (description mcp_server));
                    ("number_of_tools", PInt (Z.of_nat number_of_tools))]).

(** The [for] loop, with [mcp_info] as built so far. *)
Fixpoint start_servers (servers : list MCPServer) (mcp_info : list string)
    : Coro (list string) :=
  match servers with
  | [] => ret mcp_info
  | mcp_server :: servers' =>
      session <- start_mcp_server mcp_server;;
      match session with
      | None => start_servers servers' mcp_info
      | Some session =>
          set_registry (name mcp_server) session;;
          listing <- await no_ctx (EvListTools session) (list_tools session);;
          start_servers servers'
            (mcp_info ++ [server_info mcp_server (List.length (tools listing))])
      end
  end.

Definition no_servers_started : string := "No MCP servers started successfully.".

Definition start_all_mcp_servers (mcp_router_config : MCPRouterConfig) : Coro string :=
  mcp_info <- start_servers (mcpServers mcp_router_config) [];;
  ret (match mcp_info with
       | [] => no_servers_started
       | _ => join (newline ++ "###" ++ newline) mcp_info
       end).

(** *** run_tool *)

Definition clean_content (content_hmap : Dict) : Dict :=
  dict_pop "meta" (dict_pop "annotations" content_hmap).

(** [ctx] is the task and timeout block the caller runs in. *)
Definition run_tool (ctx : AwaitCtx) (session : Session)
    (tool_name : option string) (tool_arguments : option PyVal) : Coro (list Dict) :=
  tool_call_result <- await ctx (EvCallTool session tool_name tool_arguments)
                        (call_tool session tool_name tool_arguments);;
  ret (map clean_content (content tool_call_result)).

(** *** background_tool_execution *)

Definition timeout_message (timeout : float) : string :=
  "Tool execution exceeded timeout of " ++ float_repr timeout ++ " seconds.".

(** [BackgroundToolCallResult(status=COMPLETED, results=tool_results)]:
    the constructor validates [results] against the type the field is
    declared with and raises [pydantic.ValidationError] when the list does
    not pass.  The other constructor calls of the engine pass
    [results=None], which there is nothing to validate in. *)
Definition completed_result (tool_results : list Dict) : Coro BackgroundToolCallResult :=
  match validate_results tool_results with
  | inr models =>
      ret {| status := COMPLETED; error_message := None; results := Some models |}
  | inl msg => raise (OtherException "ValidationError" msg)
  end.

(** [cancelled]: whether [cancel()] was called on the task running this
    coroutine before it got to run. *)
Definition background_tool_execution (cancelled : bool) (tool_call_id : string)
    (session : Session) (tool_name : option string)
    (tool_arguments : option PyVal) (timeout : float) : Coro unit :=
  try_except
    (let ctx := {| cancel_requested := cancelled; deadline := Some timeout |} in
     tool_results <- run_tool ctx session tool_name tool_arguments;;
     result <- completed_result tool_results;;
     table_set tool_call_id result)
    (fun e =>
       if is_TimeoutError e then
         Some (table_set tool_call_id
                 {| status := TIMEOUT;
                    error_message := Some (timeout_message timeout);
                    results := None |})
       else if is_Exception e then
         Some (table_set tool_call_id
                 {| status := FAILED;
                    error_message := Some (py_str e);
                    results := None |})
       else None).

(** *** mcp_router *)

Definition supported_actions : list string :=
  ["list_tools"; "get_description"; "get_tool_schema"; "execute_tool";
   "spawn_tool_in_background"; "poll_tool_result"].

(** [action in [...]] *)
Definition action_supported (action : string) : bool :=
  existsb (String.eqb action) supported_actions.

Definition list_tools_remainder : list Dict :=
  [text_block (PStr "Do not make assumptions about tool schema, if you have found a tool you want to use, call get_tool_schema action to get its schema. This is important to avoid malformed requests.");
   text_block (PStr "Only use get_description action if you are unsure about what a tool does based on its name.")].

(** [{ tool.name: f(tool) for tool in result.tools }]: a later tool of the
    same name replaces an earlier one. *)
Definition tool_hmap {V} (f : Tool -> V) (l : list Tool) : gmap string V :=
  foldl (fun m tool => <[tool_name_of tool := f tool]> m) ∅ l.

Definition schema_hint : string :=
  "if you feel confused, use get_description action to get the tool description".

Definition schema_block (tool_name : option string) (schema : PyVal) : Dict :=
  text_block (PStr (yaml_dump (PDict [("name", opt_str tool_name);
                                      ("description", PStr schema_hint);
                                      ("input_schema", schema)]))).

Definition poll_instructions : string :=
  "Use poll_tool_result action with the tool_call_id to check the status and retrieve results.".

Definition pending_notice (st : BackgroundToolCallStatus) : string :=
  "Status: " ++ format_status st ++
  ". The tool execution is still in progress. Please check back later.".

Definition error_notice (st : BackgroundToolCallStatus) (msg : option string) : string :=
  "Status: " ++ format_status st ++ ". Error Message: " ++ format_opt_str msg.

(** [asyncio.create_task(self.background_tool_execution(...))]: the
    coroutine is only scheduled, it first runs when the event loop next
    gets control. *)
Definition create_task (tool_call_id : string) (session : Session)
    (tool_name : option string) (tool_arguments : option PyVal)
    (timeout : float) : Coro Task :=
  emit (EvCreateTask tool_call_id);;
  ret {| task_call_id := tool_call_id;
         task_session := session;
         task_tool_name := tool_name;
         task_tool_arguments := tool_arguments;
         task_timeout := timeout;
         task_state := TaskPending |}.

(** The value every case returns is a list of blocks, or [None] where the
    code returns an [Optional] field as it is. *)

(** [case "list_tools":] *)
Definition case_list_tools (session : Session) : Coro (option (list Dict)) :=
  result <- await no_ctx (EvListTools session) (list_tools session);;
  let tool_names :=
    map (fun tool => text_block (PStr ("tool_name: " ++ tool_name_of tool)))
        (tools result) in
  ret (Some (tool_names ++ list_tools_remainder)%list).

(** [case "get_description":] *)
Definition case_get_description (session : Session) (tool_name : option string)
    : Coro (option (list Dict)) :=
  result <- await no_ctx (EvListTools session) (list_tools session);;
  let hmap_tool_to_description := tool_hmap tool_description (tools result) in
  d <- subscript hmap_tool_to_description tool_name;;
  ret (Some [text_block (opt_str d)]).

(** [case "get_tool_schema":] *)
Definition case_get_tool_schema (session : Session) (tool_name : option string)
    : Coro (option (list Dict)) :=
  result <- await no_ctx (EvListTools session) (list_tools session);;
  let hmap_tool_to_schema := tool_hmap inputSchema (tools result) in
  schema <- subscript hmap_tool_to_schema tool_name;;
  ret (Some [schema_block tool_name schema]).

(** [case "execute_tool":] *)
Definition case_execute_tool (session : Session) (tool_name : option string)
    (tool_arguments : option PyVal) : Coro (option (list Dict)) :=
  tool_results <- run_tool no_ctx session tool_name tool_arguments;;
  ret (Some tool_results).

(** [case "spawn_tool_in_background":] *)
Definition case_spawn_tool_in_background (session : Session)
    (tool_name : option string) (tool_arguments : option PyVal)
    (timeout : float) : Coro (option (list Dict)) :=
  tool_call_id <- from_world uuid4;;
  task <- create_task tool_call_id session tool_name tool_arguments timeout;;
  table_set tool_call_id
    {| status := PENDING; error_message := None; results := None |};;
  e <- get_engine;;
  set_background_tasks (background_tasks e ++ [task])%list;;
  ret (Some [text_block (PStr ("tool_call_id: " ++ tool_call_id));
             text_block (PStr poll_instructions)]).

(** [case "poll_tool_result":] *)
Definition case_poll_tool_result (tool_call_id : option string)
    : Coro (option (list Dict)) :=
  e <- get_engine;;
  result <- subscript (hmap_call_id_to_results e) tool_call_id;;
  (if is_terminal (status result) then
     match tool_call_id with
     | Some k => table_del k
     | None => ret tt
     end
   else ret tt);;
  if bool_decide (status result = PENDING) then
    ret (Some [text_block (PStr (pending_notice (status result)))])
  else if bool_decide (status result = COMPLETED) then
    ret (results result)
  else
    ret (Some [text_block (PStr (error_notice (status result)
                                   (error_message result)))]).

(** [match action:], reached with a supported action only. *)
Definition match_action (action : string) (session : Session)
    (tool_name : option string) (tool_arguments : option PyVal)
    (tool_call_id : option string) (timeout : float)
    : Coro (option (list Dict)) :=
  if String.eqb action "list_tools" then
    case_list_tools session
  else if String.eqb action "get_description" then
    case_get_description session tool_name
  else if String.eqb action "get_tool_schema" then
    case_get_tool_schema session tool_name
  else if String.eqb action "execute_tool" then
    case_execute_tool session tool_name tool_arguments
  else if String.eqb action "spawn_tool_in_background" then
    case_spawn_tool_in_background session tool_name tool_arguments timeout
  else
    case_poll_tool_result tool_call_id.

(** [json.loads(tool_arguments)] when the argument is given. *)
Definition loads_if_given (tool_arguments : option string) : Coro (option PyVal) :=
  match tool_arguments with
  | Some text =>
      match json_loads text with
      | inr v => ret (Some v)
      | inl msg => raise (JSONDecodeError msg)
      end
  | None => ret None
  end.

Definition mcp_router (server_name action : string)
    (tool_name tool_arguments tool_call_id : option string)
    (timeout : float) : Coro (option (list Dict)) :=
  if negb (action_supported action) then
    raise (ValueError ("Unsupported action: " ++ action))
  else
    tool_arguments <- loads_if_given tool_arguments;;
    e <- get_engine;;
    session <- subscript (hmap_mcp_server_to_session e) (Some server_name);;
    match_action action session tool_name tool_arguments tool_call_id timeout.

(** *** The event loop running a background task *)

(** The loop resumes the task, which runs to its end: the coroutine has one
    suspension point and the engine writes nothing in between.  A task that
    is done stays as it is. *)
Definition run_task (t : Task) : Coro Task :=
  if task_done (task_state t) then ret t
  else
    r <- attempt (background_tool_execution
                    (bool_decide (task_state t = TaskCancelling))
                    (task_call_id t) (task_session t) (task_tool_name t)
                    (task_tool_arguments t) (task_timeout t));;
    let st := match r with
              | inr _ => TaskFinished
              | inl _ => TaskCancelled
              end in
    emit (EvTaskDone (task_call_id t) st);;
    ret (set_task_state st t).

(** The loop runs the [i]-th tracked task. *)
Definition step_task (i : nat) : Coro unit :=
  e <- get_engine;;
  match background_tasks e !! i with
  | None => ret tt
  | Some t =>
      t' <- run_task t;;
      e' <- get_engine;;
      set_background_tasks (<[i := t']> (background_tasks e'))
  end.

(** *** __aexit__ *)

(** [task.cancel()]: nothing happens to a task that is done. *)
Definition cancel (t : Task) : Coro Task :=
  if task_done (task_state t) then ret t
  else (emit (EvCancel (task_call_id t));; ret (set_task_state TaskCancelling t)).

Fixpoint for_each {A B} (f : A -> Coro B) (l : list A) : Coro (list B) :=
  match l with
  | [] => ret []
  | a :: l' => b <- f a;; bs <- for_each f l';; ret (b :: bs)
  end.

(** [await asyncio.gather] over [self.background_tasks] with
    [return_exceptions=True]: returns when every task is done, whatever way
    it ended. *)
Definition gather_background_tasks : Coro unit :=
  e <- get_engine;;
  ts <- for_each run_task (background_tasks e);;
  set_background_tasks ts.

(** [await self.stack_handler.aclose()]: contexts exit last-entered first. *)
Definition aclose : Coro unit :=
  e <- get_engine;;
  for_each (fun r => emit (EvRelease r)) (stack_handler e);;
  set_stack_handler [].

Definition aexit (exc : option PyExc) : Coro unit :=
  e <- get_engine;;
  ts <- for_each cancel (background_tasks e);;
  set_background_tasks ts;;
  gather_background_tasks;;
  aclose.

End Engine.

(** * Vocabulary of the statements *)

Section Vocabulary.
Context {World : Type} `{Env : Environment World}.

Implicit Types (m : Machine World) (e : PyExc).

(** The message of the [JSONDecodeError] that [tool_arguments] leads to, if
    it is supplied and [json.loads] rejects it. *)
Definition decode_error (tool_arguments : option string) : option string :=
  match tool_arguments with
  | Some text => match json_loads text with inl msg => Some msg | inr _ => None end
  | None => None
  end.

(** [tool_arguments] as the router holds it after the decoding step. *)
Definition decoded (tool_arguments : option string) : option PyVal :=
  match tool_arguments with
  | Some text => match json_loads text with inl _ => None | inr v => Some v end
  | None => None
  end.

Definition registered m (server_name : string) : Prop :=
  is_Some (hmap_mcp_server_to_session (engine m) !! server_name).

(** A program that changed nothing and reached nobody. *)
Definition untouched {A} m (r : Run World A) : Prop :=
  after r = m ∧ events r = [].

(** The block a poll answers a failed or timed-out task with. *)
Definition error_block (rec : BackgroundToolCallResult) : Dict :=
  text_block (PStr (error_notice (status rec) (error_message rec))).

Definition pending_block : Dict :=
  text_block (PStr (pending_notice PENDING)).

(** What a poll returns for a record in a terminal state. *)
Definition terminal_answer (rec : BackgroundToolCallResult) : option (list Dict) :=
  match status rec with
  | COMPLETED => results rec
  | _ => Some [error_block rec]
  end.

(** The engine with one record taken out of the task table. *)
Definition without_record (call_id : string) (eng : MCPEngine) : MCPEngine :=
  {| hmap_mcp_server_to_session := hmap_mcp_server_to_session eng;
     hmap_call_id_to_results := delete call_id (hmap_call_id_to_results eng);
     background_tasks := background_tasks eng;
     stack_handler := stack_handler eng |}.

Definition pending_record : BackgroundToolCallResult :=
  {| status := PENDING; error_message := None; results := None |}.

Definition spawned_task (call_id : string) (session : Session)
    (tool_name : option string) (tool_arguments : option PyVal)
    (timeout : float) : Task :=
  {| task_call_id := call_id;
     task_session := session;
     task_tool_name := tool_name;
     task_tool_arguments := tool_arguments;
     task_timeout := timeout;
     task_state := TaskPending |}.

(** The engine after one spawn: one record more, one tracked task more. *)
Definition with_spawn (t : Task) (eng : MCPEngine) : MCPEngine :=
  {| hmap_mcp_server_to_session := hmap_mcp_server_to_session eng;
     hmap_call_id_to_results :=
       <[task_call_id t := pending_record]> (hmap_call_id_to_results eng);
     background_tasks := background_tasks eng ++ [t];
     stack_handler := stack_handler eng |}.

Definition spawn_answer (call_id : string) : option (list Dict) :=
  Some [text_block (PStr ("tool_call_id: " ++ call_id));
        text_block (PStr poll_instructions)].

(** The engine with [rec] stored under [call_id]. *)
Definition with_record (call_id : string) (rec : BackgroundToolCallResult)
    (eng : MCPEngine) : MCPEngine :=
  {| hmap_mcp_server_to_session := hmap_mcp_server_to_session eng;
     hmap_call_id_to_results := <[call_id := rec]> (hmap_call_id_to_results eng);
     background_tasks := background_tasks eng;
     stack_handler := stack_handler eng |}.

(** The record of a call whose blocks passed validation as [models]. *)
Definition completed_record (models : list Dict) : BackgroundToolCallResult :=
  {| status := COMPLETED; error_message := None; results := Some models |}.

(** The exception of a validation that failed with the text [msg]. *)
Definition validation_error (msg : string) : PyExc :=
  OtherException "ValidationError" msg.

Definition timeout_record (timeout : float) : BackgroundToolCallResult :=
  {| status := TIMEOUT; error_message := Some (timeout_message timeout);
     results := None |}.

Definition failed_record e : BackgroundToolCallResult :=
  {| status := FAILED; error_message := Some (py_str e); results := None |}.

(** The assignments to the task table among the events of a run. *)
Definition table_writes (evs : list Event) : list (string * BackgroundToolCallStatus) :=
  omap (fun ev => match ev with EvTableSet k st => Some (k, st) | _ => None end) evs.

(** The ways one background execution can end: with an exception that no
    [except] clause takes and nothing written, or with one terminal record
    written under its own id. *)
Inductive Ending (call_id : string) (eng : MCPEngine)
    : Run World unit -> Prop :=
| ended_cancelled m' evs e :
    is_Exception e = false ->
    table_writes evs = [] ->
    engine m' = eng ->
    Ending call_id eng {| outcome := inl e; after := m'; events := evs |}
| ended_written m' evs rec :
    is_terminal (status rec) = true ->
    table_writes evs = [(call_id, status rec)] ->
    engine m' = with_record call_id rec eng ->
    Ending call_id eng {| outcome := inr tt; after := m'; events := evs |}.

(** *** Startup *)

(** The parameters [start_mcp_server] launches a backend with. *)
Definition server_params (mcp_server : MCPServer) : StdioServerParameters :=
  {| sp_command := command (startup mcp_server);
     sp_args := args (startup mcp_server);
     sp_env := env (startup mcp_server) |}.

(** The actions that only ask a backend. *)
Definition stateless_actions : list string :=
  ["list_tools"; "get_description"; "get_tool_schema"; "execute_tool"].

(** A run that ended with an exception. *)
Definition is_inl_run {A} (r : Run World A) : Prop := ∃ e, outcome r = inl e.

(** A run with events that came before it. *)
Definition preceded {A} (evs : list Event) (r : Run World A) : Run World A :=
  {| outcome := outcome r; after := after r; events := evs ++ events r |}.

(** The engine with [session] registered under [k]. *)
Definition with_backend (k : string) (session : Session) (eng : MCPEngine)
    : MCPEngine :=
  {| hmap_mcp_server_to_session := <[k := session]> (hmap_mcp_server_to_session eng);
     hmap_call_id_to_results := hmap_call_id_to_results eng;
     background_tasks := background_tasks eng;
     stack_handler := stack_handler eng |}.

(** The summary [start_all_mcp_servers] returns for the lines [mcp_info]. *)
Definition summary (mcp_info : list string) : string :=
  match mcp_info with
  | [] => no_servers_started
  | _ => join (newline ++ "###" ++ newline) mcp_info
  end.

(** *** Sequences of calls *)

(** What a caller passes to spawn one invocation. *)
Record Request := {
  rq_server : string;
  rq_tool : option string;
  rq_arguments : option string;
  rq_timeout : float
}.

Definition spawn (q : Request) : Prog World (option (list Dict)) :=
  mcp_router (rq_server q) "spawn_tool_in_background" (rq_tool q)
    (rq_arguments q) None (rq_timeout q).



Definition valid_request m (q : Request) : Prop :=
  registered m (rq_server q) ∧ decode_error (rq_arguments q) = None.

(** The task a request is spawned as, under the id it was given. *)
Definition task_of (eng : MCPEngine) (call_id : string) (q : Request) : Task :=
  spawned_task call_id
    (default (O : Session) (hmap_mcp_server_to_session eng !! rq_server q))
    (rq_tool q) (decoded (rq_arguments q)) (rq_timeout q).

Definition spawn_events (call_id : string) : list Event :=
  [EvCreateTask call_id; EvTableSet call_id PENDING].

(** [n] times the same call, one after the other. *)
Definition repeatedly {A} (n : nat) (p : Prog World A) : Prog World (list A) :=
  for_each (fun _ : unit => p) (replicate n tt).

(** A spawned call from start to end: the spawn, the event loop running
    the task it created, and a poll for it through [server_name]. *)
Definition spawn_run_poll (q : Request) (server_name : string)
    : Prog World (option (list Dict)) :=
  fun m =>
    (spawn q;;
     step_task (List.length (background_tasks (engine m)));;
     mcp_router server_name "poll_tool_result" None None
       (Some (uuid4 (world m)).1) (rq_timeout q)) m.

(** The session a request is routed to. *)
Definition session_of (eng : MCPEngine) (q : Request) : Session :=
  default (O : Session) (hmap_mcp_server_to_session eng !! rq_server q).

(** *** Listings *)

Definition named (tool_name : string) (tool : Tool) : bool :=
  String.eqb (tool_name_of tool) tool_name.

(** The entry a listing has for a name: the last one, if there are several. *)
Definition current_tool (tool_name : string) (l : list Tool) : option Tool :=
  last (List.filter (named tool_name) l).

Definition name_block (tool : Tool) : Dict :=
  text_block (PStr ("tool_name: " ++ tool_name_of tool)).

Definition description_block (tool : Tool) : Dict :=
  text_block (opt_str (tool_description tool)).

(** The machine with the world replaced. *)
Definition in_world (w : World) m : Machine World :=
  {| engine := engine m; world := w |}.

(** *** Shutdown *)

Definition outstanding (ts : list Task) : list Task :=
  List.filter (fun t => negb (task_done (task_state t))) ts.

(** A task after [cancel()] was called on it. *)
Definition cancelling (t : Task) : Task :=
  if task_done (task_state t) then t else set_task_state TaskCancelling t.

(** A task after shutdown: as it ended before, or cancelled. *)
Definition shut_task (t : Task) : Task :=
  if task_done (task_state t) then t else set_task_state TaskCancelled t.

Definition cancel_events (ts : list Task) : list Event :=
  map (fun t => EvCancel (task_call_id t)) (outstanding ts).

Definition done_events (ts : list Task) : list Event :=
  map (fun t => EvTaskDone (task_call_id t) TaskCancelled) (outstanding ts).

Definition release_events (rs : list Resource) : list Event := map EvRelease rs.

Definition is_release (ev : Event) : bool :=
  match ev with EvRelease _ => true | _ => false end.

(** The engine after [__aexit__]. *)
Definition shut_down (eng : MCPEngine) : MCPEngine :=
  {| hmap_mcp_server_to_session := hmap_mcp_server_to_session eng;
     hmap_call_id_to_results := hmap_call_id_to_results eng;
     background_tasks := map shut_task (background_tasks eng);
     stack_handler := [] |}.

End Vocabulary.

(** * A scripted environment

    An instance of [Environment] to run the engine on concrete inputs: the
    world is the list of answers the outside will give, in the order the
    engine asks. *)

Module Replay.

Inductive Reply :=
| Uuid (s : string)
| Stdio (r : PyExc + Transport)
| Entered (r : PyExc + Session)
| Initialized (r : PyExc + unit)
| Listed (r : PyExc + ListToolsResult)
| Called (r : PyExc + CallToolResult)
| Deadline (passed : bool)
| Served (r : PyExc + unit).

Definition Script := list Reply.

Definition exhausted : PyExc := OtherException "RuntimeError" "no answer scripted".

(** Takes the next answer if [pick] accepts it, [default] otherwise. *)
Definition next {A} (pick : Reply -> option A) (default : A) (w : Script) : A * Script :=
  match w with
  | r :: w' => match pick r with Some a => (a, w') | None => (default, w) end
  | [] => (default, [])
  end.

(** Stands in for [json.loads] on the texts the examples use: it decodes
    the few JSON texts listed, and answers any other text with the message
    [json.loads] has for a text that no JSON value starts with, such as
    [oops].  The examples use no other text. *)
Definition replay_json_loads (text : string) : string + PyVal :=
  if String.eqb text "{}" then inr (PDict [])
  else if String.eqb text "[]" then inr (PList [])
  else if String.eqb text "null" then inr PNone
  else if String.eqb text "true" then inr (PBool true)
  else if String.eqb text "false" then inr (PBool false)
  else if String.eqb text "1" then inr (PInt 1)
  else inl "Expecting value: line 1 column 1 (char 0)".

(** A plain rendering that stands in for [yaml.dump]. *)
Fixpoint render (v : PyVal) : string :=
  match v with
  | PNone => "null"
  | PBool true => "true"
  | PBool false => "false"
  | PInt z => pretty z
  | PFloat f => float_repr f
  | PStr s => s
  | PList l => "[" ++ join ", " (map render l) ++ "]"
  | PDict d => "{" ++ join ", " (map (fun kv => fst kv ++ ": " ++ render (snd kv)) d) ++ "}"
  end.

Definition replay_yaml_dump (v : PyVal) : string :=
  match v with
  | PDict d => String.concat "" (map (fun kv => fst kv ++ ": " ++ render (snd kv) ++ newline) d)
  | _ => render v ++ newline
  end.

(** [str(e)]: the message for the exceptions that carry one, the [repr] of
    the key for a [KeyError]. *)
Definition replay_py_str (e : PyExc) : string :=
  match e with
  | ValueError msg | JSONDecodeError msg | OtherException _ msg => msg
  | KeyError (Some k) => "'" ++ k ++ "'"
  | KeyError None => "None"
  | TimeoutError | CancelledError => ""
  end.

(** Stands in for pydantic on the lists the examples use: a block with no
    [content] entry is not a [CallToolResult]; any other is taken as it is.
    The text stands in for the report pydantic prints. *)
Definition missing_content : string :=
  "validation error for BackgroundToolCallResult: results: content: Field required".

Fixpoint replay_validate (l : list Dict) : string + list Dict :=
  match l with
  | [] => inr []
  | d :: l' =>
      match dict_get "content" d with
      | None => inl missing_content
      | Some _ =>
          match replay_validate l' with
          | inr models => inr (d :: models)
          | inl msg => inl msg
          end
      end
  end.

#[export] Instance replay : Environment Script.
Proof.
  refine {|
    json_loads := replay_json_loads;
    yaml_dump := replay_yaml_dump;
    py_str := replay_py_str;
    uuid4 := next (fun r => match r with Uuid s => Some s | _ => None end) "";
    stdio_client _ :=
      next (fun r => match r with Stdio x => Some x | _ => None end) (inl exhausted);
    client_session _ :=
      next (fun r => match r with Entered x => Some x | _ => None end) (inl exhausted);
    initialize _ :=
      next (fun r => match r with Initialized x => Some x | _ => None end) (inl exhausted);
    list_tools _ :=
      next (fun r => match r with Listed x => Some x | _ => None end) (inl exhausted);
    call_tool _ _ _ :=
      next (fun r => match r with Called x => Some x | _ => None end) (inl exhausted);
    deadline_passes _ :=
      next (fun r => match r with Deadline b => Some b | _ => None end) false;
    run_async _ _ _ :=
      next (fun r => match r with Served x => Some x | _ => None end) (inl exhausted);
    validate_results := replay_validate;
    validate_results_nil := eq_refl;
    validate_results_content := _
  |}.
  intros l d I N. induction l as [|d' l IH]; [destruct I|].
  cbn [replay_validate]. destruct I as [->|I].
  - rewrite N. by eexists.
  - destruct (dict_get "content" d'); [|by eexists].
    destruct (IH I) as [msg ->]. by eexists.
Defined.

(** A machine to start examples from. *)
Definition machine (eng : MCPEngine) (w : Script) : Machine Script :=
  {| engine := eng; world := w |}.

Definition sixty : float := Float "60.0".

(** An engine with two backends registered, as sessions 1 and 2. *)
Definition two_backends : MCPEngine :=
  {| hmap_mcp_server_to_session := {["fast" := 1; "slow" := 2]};
     hmap_call_id_to_results := ∅;
     background_tasks := [];
     stack_handler := [ClientSessionCtx 2; StdioTransport 2;
                       ClientSessionCtx 1; StdioTransport 1] |}.

Definition echo_block : Dict :=
  [("type", PStr "text"); ("text", PStr "pong"); ("annotations", PNone);
   ("meta", PNone)].

Definition done_record : BackgroundToolCallResult :=
  {| status := COMPLETED; error_message := None;
     results := Some [text_block (PStr "pong")] |}.

Definition lost_record : BackgroundToolCallResult :=
  {| status := FAILED; error_message := Some "Connection closed";
     results := None |}.

Definition waiting_record : BackgroundToolCallResult :=
  {| status := PENDING; error_message := None; results := None |}.

(** [two_backends] with three background calls on record. *)
Definition busy : MCPEngine :=
  {| hmap_mcp_server_to_session := hmap_mcp_server_to_session two_backends;
     hmap_call_id_to_results :=
       {["id-done" := done_record; "id-lost" := lost_record;
         "id-wait" := waiting_record]};
     background_tasks := [];
     stack_handler := stack_handler two_backends |}.

Definition ping : Tool :=
  {| tool_name_of := "ping"; tool_description := Some "Answers pong.";
     inputSchema := PDict [("type", PStr "object")] |}.


Definition sum : Tool :=
  {| tool_name_of := "sum"; tool_description := None;
     inputSchema := PDict [] |}.

Definition alpha : MCPServer :=
  {| name := "alpha"; description := "first backend"; timeout := Float "30.0";
     startup := {| command := "alpha-server"; args := []; env := [] |} |}.

Definition beta : MCPServer :=
  {| name := "beta"; description := "second backend"; timeout := Float "30.0";
     startup := {| command := "beta-server"; args := ["--stdio"]; env := [] |} |}.

(** The answers of a backend that starts, as session [s] with the tools [l]. *)
Definition starts (s : Session) (l : list Tool) : Script :=
  [Deadline false; Stdio (inr s); Deadline false; Entered (inr s);
   Deadline false; Initialized (inr tt); Deadline false;
   Listed (inr {| tools := l |})].

Definition ping_request : Request :=
  {| rq_server := "fast"; rq_tool := Some "ping"; rq_arguments := Some "{}";
     rq_timeout := sixty |}.

Definition connection_closed : PyExc := OtherException "McpError" "Connection closed".

End Replay.


(** * A world of local backends

    A second environment, with no script: a backend starts exactly when its
    command is not ["missing"], sessions are numbered as they are opened,
    every session lists one tool and answers every call with its name. *)

Module Local.

Definition not_found : PyExc :=
  OtherException "FileNotFoundError" "No such file or directory: 'missing'".

Definition echo : Tool :=
  {| tool_name_of := "echo"; tool_description := Some "Returns its name.";
     inputSchema := PDict [("type", PStr "object")] |}.

#[export] Instance local : Environment nat := {
  json_loads := Replay.replay_json_loads;
  yaml_dump := Replay.replay_yaml_dump;
  py_str := Replay.replay_py_str;
  uuid4 w := ("call-" ++ pretty w, S w);
  stdio_client p w :=
    if String.eqb (sp_command p) "missing" then (inl not_found, w)
    else (inr w, S w);
  client_session t w := (inr t, w);
  initialize _ w := (inr tt, w);
  list_tools _ w := (inr {| tools := [echo] |}, w);
  call_tool _ tool _ w :=
    (inr {| content := [text_block (opt_str tool)]; isError := false |}, w);
  deadline_passes _ w := (false, w);
  run_async _ _ _ w := (inr tt, w);
  validate_results := Replay.replay_validate;
  validate_results_nil := @validate_results_nil _ Replay.replay;
  validate_results_content := @validate_results_content _ Replay.replay
}.

Definition machine (eng : MCPEngine) (w : nat) : Machine nat :=
  {| engine := eng; world := w |}.

Definition missing : MCPServer :=
  {| name := "ghost"; description := "not installed"; timeout := Float "30.0";
     startup := {| command := "missing"; args := []; env := [] |} |}.

Definition present : MCPServer :=
  {| name := "files"; description := "file tools"; timeout := Float "30.0";
     startup := {| command := "files-server"; args := []; env := [] |} |}.

End Local.
(** * Properties *)

(** Runs the monad's operations and the field updates, and nothing else:
    maps, strings and the environment stay as they are written. *)
Ltac step :=
  cbv [bind ret raise try_except attempt emit get_engine put_engine from_world
       call_world await outcome after events engine world cancel_requested
       deadline no_ctx set_registry table_set table_del set_background_tasks
       set_stack_handler enter_async_context subscript mbind option_bind negb];
  cbn [app hmap_mcp_server_to_session hmap_call_id_to_results background_tasks
       stack_handler].

Ltac step_in H :=
  cbv [bind ret raise try_except attempt emit get_engine put_engine from_world
       call_world await outcome after events engine world cancel_requested
       deadline no_ctx set_registry table_set table_del set_background_tasks
       set_stack_handler enter_async_context subscript mbind option_bind negb]
    in H;
  cbn [app hmap_mcp_server_to_session hmap_call_id_to_results background_tasks
       stack_handler] in H.

Ltac open_machine m :=
  let eng := fresh "eng" in
  let w := fresh "w" in
  destruct m as [eng w]; cbn [engine world] in *.

Ltac step_bte := cbv [background_tool_execution run_tool completed_result]; step.

Section Properties.
Context {World : Type} `{Env : Environment World}.

Implicit Types (m : Machine World) (e : PyExc).

(** ** Loops *)

Lemma for_each_cons {A B} (f : A -> Prog World B) a l m b bs m' m'' evs evs' :
  f a m = {| outcome := inr b; after := m'; events := evs |} ->
  for_each f l m' = {| outcome := inr bs; after := m''; events := evs' |} ->
  for_each f (a :: l) m
  = {| outcome := inr (b :: bs); after := m''; events := evs ++ evs' |}.
Proof.
  intros F L. cbn [for_each]. unfold bind, ret. rewrite F, L.
  by rewrite app_nil_r.
Qed.

(** ** Validation *)

Lemma router_unsupported m server_name action tool_name tool_arguments tool_call_id timeout :
  action_supported action = false ->
  mcp_router server_name action tool_name tool_arguments tool_call_id timeout m
  = {| outcome := inl (ValueError ("Unsupported action: " ++ action));
       after := m; events := [] |}.
Proof. intros H. unfold mcp_router. by rewrite H. Qed.

Lemma router_malformed m server_name action tool_name tool_arguments tool_call_id timeout msg :
  action_supported action = true ->
  decode_error tool_arguments = Some msg ->
  mcp_router server_name action tool_name tool_arguments tool_call_id timeout m
  = {| outcome := inl (JSONDecodeError msg); after := m; events := [] |}.
Proof.
  intros H D. unfold mcp_router, loads_if_given, decode_error in *. rewrite H.
  destruct tool_arguments as [text|]; [|discriminate].
  destruct (json_loads text) as [msg'|v]; [|discriminate].
  by injection D as ->.
Qed.

Lemma router_unknown_backend m server_name action tool_name tool_arguments tool_call_id timeout :
  action_supported action = true ->
  decode_error tool_arguments = None ->
  hmap_mcp_server_to_session (engine m) !! server_name = None ->
  mcp_router server_name action tool_name tool_arguments tool_call_id timeout m
  = {| outcome := inl (KeyError (Some server_name)); after := m; events := [] |}.
Proof.
  intros H D R. unfold mcp_router, loads_if_given, decode_error in *. rewrite H.
  open_machine m.
  destruct tool_arguments as [text|];
    [destruct (json_loads text) as [msg'|v]; [discriminate|] |];
    step; by rewrite R.
Qed.

(** Past validation the call is the [match] statement on the session found
    and the decoded arguments. *)
Lemma router_validated m server_name action tool_name tool_arguments tool_call_id timeout session :
  action_supported action = true ->
  decode_error tool_arguments = None ->
  hmap_mcp_server_to_session (engine m) !! server_name = Some session ->
  mcp_router server_name action tool_name tool_arguments tool_call_id timeout m
  = match_action action session tool_name (decoded tool_arguments) tool_call_id timeout m.
Proof.
  intros H D R. unfold mcp_router, loads_if_given, decode_error, decoded in *. rewrite H.
  open_machine m.
  destruct tool_arguments as [text|];
    [destruct (json_loads text) as [msg'|v]; [discriminate|] |];
    step; rewrite R;
    by destruct (match_action _ _ _ _ _ _ _) as [o a ev].
Qed.

Lemma supported_iff action :
  action_supported action = true <-> action ∈ supported_actions.
Proof.
  unfold action_supported. rewrite existsb_exists. split.
  - intros (x & Hx & E). apply String.eqb_eq in E as ->.
    by apply list_elem_of_In.
  - intros Hx. exists action. split; [by apply list_elem_of_In | apply String.eqb_refl].
Qed.

(** ** Polling *)

Lemma poll_unknown_task m tool_call_id :
  tool_call_id ≫= (hmap_call_id_to_results (engine m) !!.) = None ->
  case_poll_tool_result tool_call_id m
  = {| outcome := inl (KeyError tool_call_id); after := m; events := [] |}.
Proof.
  intros T. open_machine m. unfold case_poll_tool_result. step.
  destruct tool_call_id as [k|]; cbn [mbind option_bind] in T; by rewrite ?T.
Qed.

Lemma poll_terminal m call_id rec :
  hmap_call_id_to_results (engine m) !! call_id = Some rec ->
  is_terminal (status rec) = true ->
  case_poll_tool_result (Some call_id) m
  = {| outcome := inr (terminal_answer rec);
       after := {| engine := without_record call_id (engine m); world := world m |};
       events := [EvTableDel call_id] |}.
Proof.
  intros T S. open_machine m. unfold case_poll_tool_result. step.
  rewrite T, S. unfold terminal_answer, error_block.
  by destruct (status rec).
Qed.

Lemma poll_pending m call_id rec :
  hmap_call_id_to_results (engine m) !! call_id = Some rec ->
  status rec = PENDING ->
  case_poll_tool_result (Some call_id) m
  = {| outcome := inr (Some [pending_block]); after := m; events := [] |}.
Proof.
  intros T S. open_machine m. unfold case_poll_tool_result. step.
  by rewrite T, S.
Qed.

(** ** Spawning *)

Lemma spawn_run m session tool_name tool_arguments timeout :
  let call_id := (uuid4 (world m)).1 in
  let t := spawned_task call_id session tool_name tool_arguments timeout in
  case_spawn_tool_in_background session tool_name tool_arguments timeout m
  = {| outcome := inr (spawn_answer call_id);
       after := {| engine := with_spawn t (engine m); world := (uuid4 (world m)).2 |};
       events := [EvCreateTask call_id; EvTableSet call_id PENDING] |}.
Proof.
  open_machine m. unfold case_spawn_tool_in_background, create_task. step.
  by destruct (uuid4 w) as [call_id w'].
Qed.

(** The router on the three actions that never look at the session's
    listing. *)
Lemma router_poll m server_name tool_name tool_arguments tool_call_id timeout :
  registered m server_name ->
  decode_error tool_arguments = None ->
  mcp_router server_name "poll_tool_result" tool_name tool_arguments tool_call_id
    timeout m
  = case_poll_tool_result tool_call_id m.
Proof. intros [session R] D. by rewrite (router_validated _ _ _ _ _ _ _ session). Qed.

Lemma spawn_request_run m q :
  valid_request m q ->
  let call_id := (uuid4 (world m)).1 in
  spawn q m
  = {| outcome := inr (spawn_answer call_id);
       after := {| engine := with_spawn (task_of (engine m) call_id q) (engine m);
                   world := (uuid4 (world m)).2 |};
       events := spawn_events call_id |}.
Proof.
  intros [[session R] D] call_id. unfold spawn.
  rewrite (router_validated _ _ _ _ _ _ _ session) by done.
  change (match_action "spawn_tool_in_background" session (rq_tool q)
            (decoded (rq_arguments q)) None (rq_timeout q))
    with (case_spawn_tool_in_background session (rq_tool q)
            (decoded (rq_arguments q)) (rq_timeout q)).
  rewrite spawn_run. unfold task_of. by rewrite R.
Qed.




(** ** Dictionaries *)

Lemma dict_get_pop k k' (d : Dict) :
  dict_get k (dict_pop k' d) = if String.eqb k k' then None else dict_get k d.
Proof.
  unfold dict_pop. induction d as [|[k0 v] d IH]; cbn [List.filter dict_get fst].
  - by destruct (String.eqb k k').
  - destruct (String.eqb_spec k0 k') as [->|N]; cbn [negb dict_get].
    + rewrite IH. rewrite (String.eqb_sym k' k).
      by destruct (String.eqb k k').
    + rewrite IH. destruct (String.eqb_spec k k') as [->|N'].
      * by rewrite (proj2 (String.eqb_neq _ _) N).
      * done.
Qed.

(** ** One background execution *)

Lemma execution_cancelled m call_id session tool_name tool_arguments timeout :
  background_tool_execution true call_id session tool_name tool_arguments timeout m
  = {| outcome := inl CancelledError; after := m; events := [] |}.
Proof. reflexivity. Qed.

Lemma execution_deadline m call_id session tool_name tool_arguments timeout w :
  deadline_passes timeout (world m) = (true, w) ->
  background_tool_execution false call_id session tool_name tool_arguments timeout m
  = {| outcome := inr tt;
       after := {| engine := with_record call_id (timeout_record timeout) (engine m);
                   world := w |};
       events := [EvCallTool session tool_name tool_arguments;
                  EvTableSet call_id TIMEOUT] |}.
Proof. intros H. open_machine m. step_bte. by rewrite H. Qed.

(** A call that returns: the record is COMPLETED when the cleaned blocks
    pass the validation of the constructor, and FAILED with the text of
    the validation error, through [except Exception], when they do not. *)
Lemma execution_returns m call_id session tool_name tool_arguments timeout w w' result :
  deadline_passes timeout (world m) = (false, w) ->
  call_tool session tool_name tool_arguments w = (inr result, w') ->
  background_tool_execution false call_id session tool_name tool_arguments timeout m
  = let rec := match validate_results (map clean_content (content result)) with
               | inr models => completed_record models
               | inl msg => failed_record (validation_error msg)
               end in
    {| outcome := inr tt;
       after := {| engine := with_record call_id rec (engine m); world := w' |};
       events := [EvCallTool session tool_name tool_arguments;
                  EvTableSet call_id (status rec)] |}.
Proof.
  intros H C. open_machine m. step_bte. rewrite H. step. rewrite C. step.
  by destruct (validate_results _).
Qed.

(** What the [except] clauses make of an exception [e] of the call. *)
Lemma execution_raises m call_id session tool_name tool_arguments timeout w w' e :
  deadline_passes timeout (world m) = (false, w) ->
  call_tool session tool_name tool_arguments w = (inl e, w') ->
  background_tool_execution false call_id session tool_name tool_arguments timeout m
  = let called := EvCallTool session tool_name tool_arguments in
    if is_TimeoutError e then
      {| outcome := inr tt;
         after := {| engine := with_record call_id (timeout_record timeout) (engine m);
                     world := w' |};
         events := [called; EvTableSet call_id TIMEOUT] |}
    else if is_Exception e then
      {| outcome := inr tt;
         after := {| engine := with_record call_id (failed_record e) (engine m);
                     world := w' |};
         events := [called; EvTableSet call_id FAILED] |}
    else
      {| outcome := inl e;
         after := {| engine := engine m; world := w' |};
         events := [called] |}.
Proof.
  intros H C. open_machine m. step_bte. rewrite H. step. rewrite C.
  by destruct e.
Qed.

Lemma execution_ends m cancelled call_id session tool_name tool_arguments timeout :
  Ending call_id (engine m)
    (background_tool_execution cancelled call_id session tool_name
       tool_arguments timeout m).
Proof.
  destruct cancelled.
  - rewrite execution_cancelled. by constructor.
  - destruct (deadline_passes timeout (world m)) as [[] w] eqn:H.
    + rewrite (execution_deadline _ _ _ _ _ _ _ H).
      by apply (ended_written _ _ _ _ (timeout_record timeout)).
    + destruct (call_tool session tool_name tool_arguments w) as [[e|result] w'] eqn:C.
      * rewrite (execution_raises _ _ _ _ _ _ _ _ _ H C). cbv zeta.
        destruct (is_TimeoutError e) eqn:T; [|destruct (is_Exception e) eqn:X].
        -- by apply (ended_written _ _ _ _ (timeout_record timeout)).
        -- by apply (ended_written _ _ _ _ (failed_record e)).
        -- by constructor.
      * rewrite (execution_returns _ _ _ _ _ _ _ _ _ H C). cbv zeta.
        destruct (validate_results _) as [msg|models].
        -- by apply (ended_written _ _ _ _ (failed_record (validation_error msg))).
        -- by apply (ended_written _ _ _ _ (completed_record models)).
Qed.

(** ** Tasks and the event loop *)

Lemma run_task_done t m :
  task_done (task_state t) = true ->
  run_task t m = {| outcome := inr t; after := m; events := [] |}.
Proof. intros D. unfold run_task. by rewrite D. Qed.

Lemma run_task_cancelling t m :
  task_state t = TaskCancelling ->
  run_task t m
  = {| outcome := inr (set_task_state TaskCancelled t); after := m;
       events := [EvTaskDone (task_call_id t) TaskCancelled] |}.
Proof. intros S. unfold run_task. by rewrite S. Qed.

(** A task that was not cancelled runs its coroutine to the end. *)
Lemma run_task_pending t m m' evs :
  task_state t = TaskPending ->
  background_tool_execution false (task_call_id t) (task_session t)
    (task_tool_name t) (task_tool_arguments t) (task_timeout t) m
  = {| outcome := inr tt; after := m'; events := evs |} ->
  run_task t m
  = {| outcome := inr (set_task_state TaskFinished t); after := m';
       events := evs ++ [EvTaskDone (task_call_id t) TaskFinished] |}.
Proof.
  intros S B. unfold run_task. rewrite S.
  cbn [task_done bool_decide decide_rel]. step.
  replace (bool_decide (TaskPending = TaskCancelling)) with false by done.
  by rewrite B.
Qed.

Lemma shut_task_done t : task_done (task_state (shut_task t)) = true.
Proof.
  unfold shut_task. by destruct (task_done (task_state t)) eqn:D.
Qed.

Lemma for_each_cancel ts m :
  for_each cancel ts m
  = {| outcome := inr (map cancelling ts); after := m; events := cancel_events ts |}.
Proof.
  induction ts as [|t ts IH]; [done|].
  unfold cancel_events, outstanding, cancelling in *. cbn [List.filter map].
  destruct (task_done (task_state t)) eqn:D; cbn [negb map].
  - apply (for_each_cons _ _ _ _ _ _ m _ []); [|done].
    unfold cancel. by rewrite D.
  - apply (for_each_cons _ _ _ _ _ _ m _ [_]); [|done].
    unfold cancel. by rewrite D.
Qed.

Lemma for_each_run_cancelling ts m :
  for_each run_task (map cancelling ts) m
  = {| outcome := inr (map shut_task ts); after := m; events := done_events ts |}.
Proof.
  induction ts as [|t ts IH]; [done|].
  unfold done_events, outstanding in *. cbn [List.filter map].
  unfold cancelling at 1, shut_task at 1.
  destruct (task_done (task_state t)) eqn:D; cbn [negb map].
  - apply (for_each_cons _ _ _ _ _ _ m _ []); [|done].
    by apply run_task_done.
  - apply (for_each_cons _ _ _ _ _ _ m _ [_]); [|done].
    by rewrite run_task_cancelling.
Qed.

Lemma for_each_release rs m :
  for_each (fun r => emit (EvRelease r)) rs m
  = {| outcome := inr (map (fun _ => tt) rs); after := m;
       events := release_events rs |}.
Proof.
  induction rs as [|r rs IH]; [done|].
  by apply (for_each_cons _ _ _ _ _ _ m _ [_]).
Qed.

Lemma aexit_run exc m :
  aexit exc m
  = {| outcome := inr tt;
       after := {| engine := shut_down (engine m); world := world m |};
       events := cancel_events (background_tasks (engine m))
                 ++ done_events (background_tasks (engine m))
                 ++ release_events (stack_handler (engine m)) |}.
Proof.
  open_machine m. unfold aexit, gather_background_tasks, aclose. step.
  rewrite for_each_cancel. step.
  rewrite for_each_run_cancelling. step.
  rewrite for_each_release. step.
  by rewrite !app_nil_r.
Qed.

(** A list that continues after a prefix free of [x] reaches [x] only
    after that prefix. *)
Lemma prefix_before {A} (x : A) (l1 l2 pre post : list A) :
  x ∉ l1 -> (l1 ++ l2 = pre ++ x :: post)%list -> ∃ rest, pre = (l1 ++ rest)%list.
Proof.
  revert pre. induction l1 as [|a l1 IH]; intros pre N E.
  - by exists pre.
  - destruct pre as [|b pre]; simplify_eq/=.
    + exfalso. apply N. left.
    + destruct (IH pre) as [rest ->]; [|done|by exists rest].
      intros ?. apply N. by right.
Qed.

(** ** Listings *)

Lemma tool_hmap_from {V} (f : Tool -> V) l (acc : gmap string V) k :
  foldl (fun h tool => <[tool_name_of tool := f tool]> h) acc l !! k
  = match current_tool k l with
    | Some tool => Some (f tool)
    | None => acc !! k
    end.
Proof.
  revert acc. induction l as [|t l IH]; intros acc; [done|].
  cbn [foldl]. rewrite IH. unfold current_tool, named. cbn [List.filter].
  destruct (String.eqb_spec (tool_name_of t) k) as [->|N].
  - rewrite last_cons. destruct (last _); [done|]. by rewrite lookup_insert_eq.
  - destruct (last _); [done|]. by rewrite lookup_insert_ne.
Qed.

Lemma tool_hmap_lookup {V} (f : Tool -> V) l k :
  tool_hmap f l !! k = f <$> current_tool k l.
Proof.
  unfold tool_hmap. rewrite tool_hmap_from. by destruct (current_tool k l).
Qed.



Lemma list_tools_run m session listing w' :
  list_tools session (world m) = (inr listing, w') ->
  case_list_tools session m
  = {| outcome := inr (Some (map name_block (tools listing) ++ list_tools_remainder)%list);
       after := in_world w' m;
       events := [EvListTools session] |}.
Proof.
  intros L. open_machine m. unfold case_list_tools. step. by rewrite L.
Qed.

Lemma get_description_run m session tool_name listing w' :
  list_tools session (world m) = (inr listing, w') ->
  case_get_description session tool_name m
  = {| outcome := match tool_name ≫= (fun k => current_tool k (tools listing)) with
                  | Some tool => inr (Some [description_block tool])
                  | None => inl (KeyError tool_name)
                  end;
       after := in_world w' m;
       events := [EvListTools session] |}.
Proof.
  intros L. open_machine m. unfold case_get_description. step. rewrite L.
  destruct tool_name as [k|]; [|done].
  rewrite tool_hmap_lookup. by destruct (current_tool k (tools listing)).
Qed.

Lemma get_tool_schema_run m session tool_name listing w' :
  list_tools session (world m) = (inr listing, w') ->
  case_get_tool_schema session tool_name m
  = {| outcome := match tool_name ≫= (fun k => current_tool k (tools listing)) with
                  | Some tool => inr (Some [schema_block tool_name (inputSchema tool)])
                  | None => inl (KeyError tool_name)
                  end;
       after := in_world w' m;
       events := [EvListTools session] |}.
Proof.
  intros L. open_machine m. unfold case_get_tool_schema. step. rewrite L.
  destruct tool_name as [k|]; [|done].
  rewrite tool_hmap_lookup. by destruct (current_tool k (tools listing)).
Qed.

(** A listing that fails fails the three actions that ask for it. *)
Lemma listing_fails m session e w' :
  list_tools session (world m) = (inl e, w') ->
  let failed := {| outcome := inl e; after := in_world w' m;
                   events := [EvListTools session] |} in
  case_list_tools session m = failed
  ∧ (∀ tool_name, case_get_description session tool_name m = failed)
  ∧ (∀ tool_name, case_get_tool_schema session tool_name m = failed).
Proof.
  intros L. open_machine m.
  unfold case_list_tools, case_get_description, case_get_tool_schema.
  repeat split; intros; step; by rewrite L.
Qed.

Lemma execute_tool_run m session tool_name tool_arguments r w' :
  call_tool session tool_name tool_arguments (world m) = (r, w') ->
  case_execute_tool session tool_name tool_arguments m
  = {| outcome := match r with
                  | inr result => inr (Some (map clean_content (content result)))
                  | inl e => inl e
                  end;
       after := in_world w' m;
       events := [EvCallTool session tool_name tool_arguments] |}.
Proof.
  intros C. open_machine m. unfold case_execute_tool, run_tool. step. rewrite C.
  by destruct r.
Qed.

(** * The claims *)

(** C1: polling a task whose record is in a terminal state (COMPLETED,
    FAILED or TIMEOUT) takes the record out of the task table, returns the
    stored results for COMPLETED and a block with the status and the error
    message otherwise, and a second poll with the same id fails with a
    [KeyError] for that id instead of returning the result again. *)
Theorem poll_terminal_reads_once m server_name tool_name tool_arguments call_id
    timeout rec :
  registered m server_name ->
  decode_error tool_arguments = None ->
  hmap_call_id_to_results (engine m) !! call_id = Some rec ->
  is_terminal (status rec) = true ->
  let poll := mcp_router server_name "poll_tool_result" tool_name tool_arguments
                (Some call_id) timeout in
  let r := poll m in
  outcome r = inr (match status rec with
                   | COMPLETED => results rec
                   | _ => Some [error_block rec]
                   end)
  ∧ after r = {| engine := without_record call_id (engine m); world := world m |}
  ∧ hmap_call_id_to_results (engine (after r)) !! call_id = None
  ∧ events r = [EvTableDel call_id]
  ∧ outcome (poll (after r)) = inl (KeyError (Some call_id))
  ∧ untouched (after r) (poll (after r)).
Proof.
  intros R D T S poll r. subst poll r.
  rewrite router_poll by done. rewrite (poll_terminal _ _ _ T S).
  cbn [outcome after events]. repeat split.
  - cbn [engine without_record hmap_call_id_to_results]. apply lookup_delete_eq.
  - rewrite router_poll by done. rewrite poll_unknown_task; [done|].
    cbn [engine without_record hmap_call_id_to_results mbind option_bind].
    apply lookup_delete_eq.
  - rewrite router_poll by done. rewrite poll_unknown_task; [done|].
    cbn [engine without_record hmap_call_id_to_results mbind option_bind].
    apply lookup_delete_eq.
  - rewrite router_poll by done. rewrite poll_unknown_task; [done|].
    cbn [engine without_record hmap_call_id_to_results mbind option_bind].
    apply lookup_delete_eq.
Qed.

(** C2 on the code: a call that returns before the deadline with a content
    block (any block without a [content] entry of its own, as every block
    the MCP types define is) is not recorded as COMPLETED with its cleaned
    blocks.  The constructor of the record rejects the list of cleaned
    blocks, the [except Exception] clause takes the validation error, and
    the one record written is FAILED with the text of that error. *)
Theorem returned_blocks_recorded_as_failed m call_id session tool_name
    tool_arguments timeout w w' result block :
  deadline_passes timeout (world m) = (false, w) ->
  call_tool session tool_name tool_arguments w = (inr result, w') ->
  In block (content result) ->
  dict_get "content" block = None ->
  let r := background_tool_execution false call_id session tool_name
             tool_arguments timeout m in
  ∃ msg,
    validate_results (map clean_content (content result)) = inl msg
    ∧ outcome r = inr tt
    ∧ table_writes (events r) = [(call_id, FAILED)]
    ∧ hmap_call_id_to_results (engine (after r)) !! call_id
      = Some {| status := FAILED;
                error_message := Some (py_str (validation_error msg));
                results := None |}.
Proof.
  intros H C I N r. subst r.
  destruct (validate_results_content (map clean_content (content result))
              (clean_content block)) as [msg V].
  - by apply in_map.
  - unfold clean_content. by rewrite !dict_get_pop, N.
  - exists msg. rewrite (execution_returns _ _ _ _ _ _ _ _ _ H C). cbv zeta.
    rewrite V. cbn [outcome after events engine with_record failed_record status
                    hmap_call_id_to_results].
    repeat split. apply lookup_insert_eq.
Qed.


(** C4: polling a task whose record is PENDING returns the in-progress
    notice and changes nothing, neither the task table nor anything else,
    however many times the poll is repeated. *)
Theorem poll_pending_frame m server_name tool_name tool_arguments call_id timeout
    rec n :
  registered m server_name ->
  decode_error tool_arguments = None ->
  hmap_call_id_to_results (engine m) !! call_id = Some rec ->
  status rec = PENDING ->
  let poll := mcp_router server_name "poll_tool_result" tool_name tool_arguments
                (Some call_id) timeout in
  outcome (poll m) = inr (Some [pending_block])
  ∧ untouched m (poll m)
  ∧ outcome (repeatedly n poll m) = inr (replicate n (Some [pending_block]))
  ∧ untouched m (repeatedly n poll m).
Proof.
  intros R D T S poll. subst poll.
  assert (mcp_router server_name "poll_tool_result" tool_name tool_arguments
            (Some call_id) timeout m
          = {| outcome := inr (Some [pending_block]); after := m; events := [] |}) as P.
  { rewrite router_poll by done. by apply (poll_pending _ _ rec). }
  rewrite P. split; [done|]. split; [done|].
  assert (repeatedly n (mcp_router server_name "poll_tool_result" tool_name
                          tool_arguments (Some call_id) timeout) m
          = {| outcome := inr (replicate n (Some [pending_block])); after := m;
               events := [] |}) as ->; [|done].
  unfold repeatedly. induction n as [|n IH]; [done|].
  cbn [replicate]. by apply (for_each_cons _ _ _ _ _ _ m _ [] []).
Qed.

(** C5: a call with an action outside the six fails with [ValueError]
    "Unsupported action", one with arguments that are not JSON fails with
    [json.JSONDecodeError], one naming a backend that is not a key of the
    registry fails with [KeyError] for that exact name; each of them before
    any backend is contacted and with the engine, registry and task table
    included, left as it was. *)
Theorem validation_errors m server_name action tool_name tool_arguments
    tool_call_id timeout :
  let r := mcp_router server_name action tool_name tool_arguments tool_call_id
             timeout m in
  (action_supported action = false ->
     outcome r = inl (ValueError ("Unsupported action: " ++ action))
     ∧ untouched m r)
  ∧ (action_supported action = true ->
     ∀ msg, decode_error tool_arguments = Some msg ->
     outcome r = inl (JSONDecodeError msg)
     ∧ is_ValueError (JSONDecodeError msg) = true
     ∧ untouched m r)
  ∧ (action_supported action = true ->
     decode_error tool_arguments = None ->
     hmap_mcp_server_to_session (engine m) !! server_name = None ->
     outcome r = inl (KeyError (Some server_name))
     ∧ untouched m r).
Proof.
  cbv zeta. repeat split.
  all: try (rewrite router_unsupported by done; done).
  all: try (erewrite router_malformed by done; done).
  all: by rewrite router_unknown_backend.
Qed.

(** C6: shutdown cancels every tracked task that is not done, lets every one
    of them end, and only then releases the sessions and transports: no
    release comes before the cancellation and the end of any outstanding
    task, and afterwards every tracked task is done and the stack of
    contexts is empty. *)
Theorem shutdown_waits_for_tasks exc m :
  let r := aexit exc m in
  let ts := background_tasks (engine m) in
  outcome r = inr tt
  ∧ events r = (cancel_events ts ++ done_events ts
                ++ release_events (stack_handler (engine m)))%list
  ∧ background_tasks (engine (after r)) = map shut_task ts
  ∧ Forall (fun t => task_done (task_state t) = true)
      (background_tasks (engine (after r)))
  ∧ stack_handler (engine (after r)) = []
  ∧ ∀ pre res post,
      events r = (pre ++ EvRelease res :: post)%list ->
      ∀ t, t ∈ ts -> task_done (task_state t) = false ->
           EvCancel (task_call_id t) ∈ pre
           ∧ EvTaskDone (task_call_id t) TaskCancelled ∈ pre.
Proof.
  cbv zeta. rewrite aexit_run. cbn [outcome after events engine].
  repeat split; try done.
  - cbn [shut_down background_tasks]. apply Forall_forall. intros t I.
    apply list_elem_of_fmap in I as (t' & -> & _). apply shut_task_done.
  - rename H into E, H0 into I, H1 into U. rewrite app_assoc in E.
    apply prefix_before in E as [rest ->].
    + apply elem_of_app. left. apply elem_of_app. left.
      apply (list_elem_of_fmap_2 (fun t => EvCancel (task_call_id t))).
      apply list_elem_of_In, filter_In. split; [by apply list_elem_of_In|].
      by rewrite U.
    + unfold cancel_events, done_events. intros X.
      apply elem_of_app in X as [X|X];
        by apply list_elem_of_fmap in X as (? & ? & _).
  - rename H into E, H0 into I, H1 into U. rewrite app_assoc in E.
    apply prefix_before in E as [rest ->].
    + apply elem_of_app. left. apply elem_of_app. right.
      apply (list_elem_of_fmap_2 (fun t => EvTaskDone (task_call_id t) TaskCancelled)).
      apply list_elem_of_In, filter_In. split; [by apply list_elem_of_In|].
      by rewrite U.
    + unfold cancel_events, done_events. intros X.
      apply elem_of_app in X as [X|X];
        by apply list_elem_of_fmap in X as (? & ? & _).
Qed.


(** C9: arguments that are supplied are decoded for every one of the six
    actions, the two that never use them included, and before the backend
    name is looked up: a call with arguments that are not JSON fails with
    the decoding error whatever [server_name] is, also when no backend of
    that name is registered. *)
Theorem arguments_decoded_first m server_name action tool_name text tool_call_id
    timeout msg :
  action ∈ supported_actions ->
  json_loads text = inl msg ->
  let r := mcp_router server_name action tool_name (Some text) tool_call_id
             timeout m in
  outcome r = inl (JSONDecodeError msg)
  ∧ outcome r ≠ inl (KeyError (Some server_name))
  ∧ untouched m r.
Proof.
  intros A J r. subst r. apply supported_iff in A.
  rewrite (router_malformed _ _ _ _ _ _ _ msg A); [done|].
  unfold decode_error. by rewrite J.
Qed.

(** C10: the task table is one map for the whole engine.  A poll needs
    [server_name] to be registered and fails with a [KeyError] for it
    otherwise, but does the same whichever registered backend it names: a
    task spawned through one backend is seen as pending, and once it has
    ended is read and removed, by a poll that names another. *)
Theorem task_ids_not_scoped m s1 s2 tool_name tool_arguments tool_call_id timeout :
  decode_error tool_arguments = None ->
  registered m s1 ->
  registered m s2 ->
  let poll s id := mcp_router s "poll_tool_result" tool_name tool_arguments id
                     timeout in
  let sp := mcp_router s1 "spawn_tool_in_background" tool_name tool_arguments
              tool_call_id timeout m in
  let id := (uuid4 (world m)).1 in
  poll s1 tool_call_id m = poll s2 tool_call_id m
  ∧ (∀ s0, ¬ registered m s0 ->
       outcome (poll s0 tool_call_id m) = inl (KeyError (Some s0)))
  ∧ outcome sp = inr (spawn_answer id)
  ∧ outcome (poll s2 (Some id) (after sp)) = inr (Some [pending_block])
  ∧ (∀ k rec, hmap_call_id_to_results (engine m) !! k = Some rec ->
       is_terminal (status rec) = true ->
       outcome (poll s2 (Some k) m) = inr (terminal_answer rec)
       ∧ hmap_call_id_to_results (engine (after (poll s2 (Some k) m))) !! k = None).
Proof.
  intros D R1 R2 poll sp id. subst poll sp id. cbv beta.
  repeat split.
  - by rewrite !router_poll.
  - intros s0 N. rewrite router_unknown_backend; [done..|].
    apply eq_None_not_Some. exact N.
  - destruct R1 as [session R1].
    rewrite (router_validated _ _ _ _ _ _ _ session) by done.
    change (match_action "spawn_tool_in_background" session tool_name
              (decoded tool_arguments) tool_call_id timeout)
      with (case_spawn_tool_in_background session tool_name
              (decoded tool_arguments) timeout).
    by rewrite spawn_run.
  - destruct R1 as [session R1].
    rewrite (router_validated m _ _ _ _ _ _ session) by done.
    change (match_action "spawn_tool_in_background" session tool_name
              (decoded tool_arguments) tool_call_id timeout)
      with (case_spawn_tool_in_background session tool_name
              (decoded tool_arguments) timeout).
    rewrite spawn_run. cbn [after]. rewrite router_poll by done.
    rewrite (poll_pending _ _ pending_record); [done| |done].
    cbn [engine with_spawn hmap_call_id_to_results spawned_task task_call_id].
    apply lookup_insert_eq.
  - rewrite router_poll by done. by rewrite (poll_terminal _ _ rec).
  - rewrite router_poll by done. rewrite (poll_terminal _ _ rec) by done.
    cbn [after engine without_record hmap_call_id_to_results].
    apply lookup_delete_eq.
Qed.

End Properties.

(** * The claims on concrete runs *)

Section Runs.
Import Replay.

Lemma poll_terminal_reads_once_witness :
  let poll := mcp_router "slow" "poll_tool_result" None None (Some "id-lost") sixty in
  let r := poll (machine busy []) in
  outcome r = inr (Some [text_block
                           (PStr "Status: BackgroundToolCallStatus.FAILED. Error Message: Connection closed")])
  ∧ hmap_call_id_to_results (engine (after r)) !! "id-lost" = None
  ∧ outcome (poll (after r)) = inl (KeyError (Some "id-lost")).
Proof.
  destruct (poll_terminal_reads_once (machine busy []) "slow" None None "id-lost"
              sixty lost_record) as (O & _ & T & _ & P & _).
  - eexists. vm_compute. reflexivity.
  - reflexivity.
  - vm_compute. reflexivity.
  - reflexivity.
  - split; [exact O|]. split; [exact T | exact P].
Defined.

Lemma returned_blocks_recorded_as_failed_witness :
  let answer := {| content := [echo_block]; isError := false |} in
  let m := machine busy [Deadline false; Called (inr answer)] in
  let r := background_tool_execution false "id-wait" 1 (Some "ping") None sixty m in
  ∃ msg,
    validate_results (map clean_content (content answer)) = inl msg
    ∧ outcome r = inr tt
    ∧ table_writes (events r) = [("id-wait", FAILED)]
    ∧ hmap_call_id_to_results (engine (after r)) !! "id-wait"
      = Some {| status := FAILED;
                error_message := Some (py_str (validation_error msg));
                results := None |}.
Proof.
  intros answer m.
  apply (returned_blocks_recorded_as_failed m "id-wait" 1 (Some "ping") None sixty
           [Called (inr answer)] [] answer echo_block).
  - reflexivity.
  - reflexivity.
  - by left.
  - reflexivity.
Defined.



Lemma poll_pending_frame_witness :
  let poll := mcp_router "fast" "poll_tool_result" None None (Some "id-wait") sixty in
  let r := repeatedly 3 poll (machine busy []) in
  outcome r = inr (replicate 3 (Some [pending_block]))
  ∧ after r = machine busy [].
Proof.
  destruct (poll_pending_frame (machine busy []) "fast" None None "id-wait" sixty
              waiting_record 3) as (_ & _ & O & A & _).
  - eexists. vm_compute. reflexivity.
  - reflexivity.
  - vm_compute. reflexivity.
  - reflexivity.
  - split; [exact O | exact A].
Defined.

Lemma validation_errors_witness :
  let m := machine busy [] in
  outcome (mcp_router "fast" "restart" None None None sixty m)
  = inl (ValueError "Unsupported action: restart")
  ∧ outcome (mcp_router "fast" "execute_tool" (Some "ping") (Some "oops") None sixty m)
    = inl (JSONDecodeError "Expecting value: line 1 column 1 (char 0)")
  ∧ outcome (mcp_router "Fast" "list_tools" None None None sixty m)
    = inl (KeyError (Some "Fast")).
Proof.
  intros m. split; [|split].
  - destruct (validation_errors m "fast" "restart" None None None sixty)
      as (U & _ & _).
    apply U. reflexivity.
  - destruct (validation_errors m "fast" "execute_tool" (Some "ping") (Some "oops")
                None sixty) as (_ & J & _).
    apply J; reflexivity.
  - destruct (validation_errors m "Fast" "list_tools" None None None sixty)
      as (_ & _ & K).
    apply K; reflexivity.
Defined.

(** C7 on the code: the backend [alpha] starts, is registered, and then
    fails the listing asked for its line of the summary.  The exception
    leaves [start_all_mcp_servers]: [beta], which would have started, is
    never launched, and [alpha] stays in the registry without a line. *)
Theorem startup_aborted_by_listing :
  let config := {| mcpServers := [alpha; beta] |} in
  let answers := (starts 1 [ping] ++ [Listed (inl connection_closed)]
                  ++ starts 2 [sum] ++ [Listed (inr {| tools := [sum] |})])%list in
  let r := start_all_mcp_servers config (machine new_engine answers) in
  outcome r = inl connection_closed
  ∧ hmap_mcp_server_to_session (engine (after r)) = {["alpha" := 1]}
  ∧ List.filter contacts_backend (events r)
    = [EvStdioClient {| sp_command := "alpha-server"; sp_args := []; sp_env := [] |};
       EvSessionEnter 1; EvInitialize 1; EvListTools 1; EvListTools 1]
  ∧ world (after r)
    = (starts 2 [sum] ++ [Listed (inr {| tools := [sum] |})])%list.
Proof. vm_compute. repeat split. Qed.


Lemma arguments_decoded_first_witness :
  outcome (mcp_router "nowhere" "poll_tool_result" None (Some "oops") (Some "id-wait")
             sixty (machine busy []))
  = inl (JSONDecodeError "Expecting value: line 1 column 1 (char 0)").
Proof.
  apply (arguments_decoded_first (machine busy []) "nowhere" "poll_tool_result" None
           "oops" (Some "id-wait") sixty).
  - apply (bool_decide_unpack _). vm_compute. reflexivity.
  - reflexivity.
Defined.

Lemma task_ids_not_scoped_witness :
  let m := machine two_backends [Uuid "id-1"] in
  let sp := mcp_router "fast" "spawn_tool_in_background" (Some "ping") (Some "{}") None
              sixty m in
  outcome sp = inr (spawn_answer "id-1")
  ∧ outcome (mcp_router "slow" "poll_tool_result" (Some "ping") (Some "{}")
               (Some "id-1") sixty (after sp))
    = inr (Some [pending_block]).
Proof.
  intros m sp.
  destruct (task_ids_not_scoped m "fast" "slow" (Some "ping") (Some "{}") None sixty)
    as (_ & _ & S & P & _).
  - reflexivity.
  - eexists. vm_compute. reflexivity.
  - eexists. vm_compute. reflexivity.
  - split; [exact S | exact P].
Defined.

End Runs.

(** * Further properties of the engine *)

Section Further.
Context {World : Type} `{Env : Environment World}.

Implicit Types (m : Machine World) (e : PyExc).

(** ** Starting one backend *)

Lemma start_mcp_server_cases mcp_server m :
  let r := start_mcp_server mcp_server m in
  let old := stack_handler (engine m) in
  (∀ e, outcome r = inl e -> is_Exception e = false)
  ∧ hmap_mcp_server_to_session (engine (after r))
    = hmap_mcp_server_to_session (engine m)
  ∧ hmap_call_id_to_results (engine (after r)) = hmap_call_id_to_results (engine m)
  ∧ background_tasks (engine (after r)) = background_tasks (engine m)
  ∧ (∃ new, stack_handler (engine (after r)) = (new ++ old)%list)
  ∧ (∀ session, outcome r = inr (Some session) ->
       ∃ t, stack_handler (engine (after r))
            = ClientSessionCtx session :: StdioTransport t :: old
            ∧ events r = [EvStdioClient (server_params mcp_server); EvSessionEnter t;
                          EvInitialize session; EvListTools session]).
Proof.
  intros r old. subst old. remember r as r' eqn:E. subst r.
  open_machine m. unfold start_mcp_server in E. step_in E.
  repeat
    (match type of E with
     | context [match ?x with _ => _ end] =>
         match x with
         | deadline_passes _ _ => destruct x as [[] ?]
         | stdio_client _ _ => destruct x as [[?|?] ?]
         | client_session _ _ => destruct x as [[?|?] ?]
         | initialize _ _ => destruct x as [[?|?] ?]
         | list_tools _ _ => destruct x as [[?|?] ?]
         | is_TimeoutError ?e => is_var e; destruct e
         end
     end; step_in E; cbn [is_TimeoutError is_Exception] in E; step_in E).
  all: subst r'; cbn [outcome after events engine stack_handler
                      hmap_mcp_server_to_session hmap_call_id_to_results
                      background_tasks].
  all: repeat split; try done; try (intros ? [=]; done).
  all: try (by eexists []).
  all: try (by eexists [_]).
  all: try (by eexists [_; _]).
  all: try (intros ? [= <-]; by eexists).
Qed.

(** ** Starting all of them *)

Lemma start_servers_cons mcp_server servers mcp_info m :
  start_servers (mcp_server :: servers) mcp_info m
  = let r := start_mcp_server mcp_server m in
    match outcome r with
    | inl e => {| outcome := inl e; after := after r; events := events r |}
    | inr None => preceded (events r) (start_servers servers mcp_info (after r))
    | inr (Some session) =>
        let eng := with_backend (name mcp_server) session (engine (after r)) in
        match list_tools session (world (after r)) with
        | (inl e, w) =>
            {| outcome := inl e; after := {| engine := eng; world := w |};
               events := events r ++ [EvListTools session] |}
        | (inr listing, w) =>
            preceded (events r ++ [EvListTools session])
              (start_servers servers
                 (mcp_info ++ [server_info mcp_server (List.length (tools listing))])
                 {| engine := eng; world := w |})
        end
    end.
Proof.
  cbn [start_servers]. unfold bind at 1. cbv zeta.
  destruct (start_mcp_server mcp_server m) as [[e|[session|]] [eng1 w1] evs].
  - reflexivity.
  - cbn [outcome after events engine world]. step.
    destruct (list_tools session w1) as [[e|listing] w2]; [done|].
    unfold preceded.
    destruct (start_servers servers _ _) as [o a ev].
    cbn [outcome after events]. by rewrite <- app_assoc.
  - cbn [outcome after events]. unfold preceded.
    by destruct (start_servers servers mcp_info _) as [o a ev].
Qed.

Lemma start_all_run mcp_router_config m :
  start_all_mcp_servers mcp_router_config m
  = let r := start_servers (mcpServers mcp_router_config) [] m in
    {| outcome := match outcome r with
                  | inl e => inl e
                  | inr mcp_info => inr (summary mcp_info)
                  end;
       after := after r; events := events r |}.
Proof.
  unfold start_all_mcp_servers, bind, ret. cbv zeta.
  destruct (start_servers _ _ _) as [[e|mcp_info] a ev]; [done|].
  cbn [outcome after events]. by rewrite app_nil_r.
Qed.

Lemma start_servers_frame servers mcp_info m :
  let r := start_servers servers mcp_info m in
  hmap_call_id_to_results (engine (after r)) = hmap_call_id_to_results (engine m)
  ∧ background_tasks (engine (after r)) = background_tasks (engine m)
  ∧ (∃ new, stack_handler (engine (after r))
            = (new ++ stack_handler (engine m))%list)
  ∧ (∀ k, k ∉ map name servers ->
          hmap_mcp_server_to_session (engine (after r)) !! k
          = hmap_mcp_server_to_session (engine m) !! k).
Proof.
  revert mcp_info m. induction servers as [|srv servers IH]; intros mcp_info m.
  { repeat split; try done. by exists []. }
  cbv zeta. rewrite start_servers_cons. cbv zeta.
  destruct (start_mcp_server_cases srv m) as (_ & R & T & B & [new S] & _).
  destruct (start_mcp_server srv m) as [[e|[session|]] m1 evs];
    cbn [outcome after events] in *.
  - rewrite T, B, S, R. repeat split; try done. by exists new.
  - destruct (list_tools session (world m1)) as [[e|listing] w2].
    + cbn [after engine with_backend hmap_mcp_server_to_session
           hmap_call_id_to_results background_tasks stack_handler].
      rewrite T, B, S, R. repeat split; try done; [by exists new|].
      intros k K. apply lookup_insert_ne. intros <-. apply K. left.
    + destruct (IH (mcp_info ++ [server_info srv (List.length (tools listing))])%list
                  {| engine := with_backend (name srv) session (engine m1);
                     world := w2 |}) as (T' & B' & [new' S'] & R').
      cbn [preceded after engine with_backend hmap_mcp_server_to_session
           hmap_call_id_to_results background_tasks stack_handler] in *.
      rewrite T', B', S', T, B, S. repeat split; try done.
      * exists (new' ++ new)%list. by rewrite app_assoc.
      * intros k K. rewrite R'.
        -- rewrite lookup_insert_ne; [by rewrite R|].
           intros <-. apply K. left.
        -- intros I. apply K. by right.
  - destruct (IH mcp_info m1) as (T' & B' & [new' S'] & R').
    cbn [preceded after]. rewrite T', B', S', T, B, S. repeat split; try done.
    * exists (new' ++ new)%list. by rewrite app_assoc.
    * intros k K. rewrite R'; [by rewrite R|].
      intros I. apply K. by right.
Qed.

Lemma start_servers_best_effort servers mcp_info m :
  (∀ session w, ∃ listing w', list_tools session w = (inr listing, w')) ->
  ∀ e, outcome (start_servers servers mcp_info m) = inl e -> is_Exception e = false.
Proof.
  intros L. revert mcp_info m.
  induction servers as [|srv servers IH]; intros mcp_info m e; [done|].
  rewrite start_servers_cons. cbv zeta.
  destruct (start_mcp_server_cases srv m) as (X & _).
  destruct (start_mcp_server srv m) as [[e'|[session|]] m1 evs];
    cbn [outcome after events] in *.
  - intros [= ->]. by apply X.
  - destruct (L session (world m1)) as (listing & w2 & ->).
    cbn [preceded outcome]. apply IH.
  - cbn [preceded outcome]. apply IH.
Qed.

(** A backend whose launch fails is passed over with nothing changed. *)
Lemma start_missing mcp_server m :
  (∀ w, ∃ e w', stdio_client (server_params mcp_server) w = (inl e, w')
                ∧ is_Exception e = true) ->
  let r := start_mcp_server mcp_server m in
  outcome r = inr None
  ∧ engine (after r) = engine m
  ∧ Forall (fun ev => ev = EvStdioClient (server_params mcp_server)) (events r).
Proof.
  intros F r. subst r. open_machine m. unfold start_mcp_server. step.
  fold (server_params mcp_server).
  destruct (deadline_passes (timeout mcp_server) w) as [[] w1]; step.
  { repeat split. by repeat constructor. }
  destruct (F w1) as (e & w2 & -> & X). step.
  destruct e; try discriminate X; cbn [is_TimeoutError is_Exception]; step;
    repeat split; by repeat constructor.
Qed.

Lemma start_servers_missing servers mcp_info m :
  Forall (fun srv => ∀ w, ∃ e w', stdio_client (server_params srv) w = (inl e, w')
                                  ∧ is_Exception e = true) servers ->
  let r := start_servers servers mcp_info m in
  outcome r = inr mcp_info
  ∧ engine (after r) = engine m
  ∧ Forall (fun ev => ∃ p, ev = EvStdioClient p) (events r).
Proof.
  revert m. induction servers as [|srv servers IH]; intros m F; [done|].
  apply Forall_cons in F as [Fs F]. cbv zeta. rewrite start_servers_cons. cbv zeta.
  destruct (start_missing srv m Fs) as (O & E & V). rewrite O.
  destruct (IH (after (start_mcp_server srv m)) F) as (O' & E' & V').
  cbn [preceded outcome after events]. rewrite O', E', E. repeat split.
  apply Forall_app. split; [|done].
  eapply Forall_impl; [exact V|]. intros ev ->. by eexists.
Qed.

(** ** What a routed call leaves alone *)

Lemma not_terminal st : is_terminal st = false -> st = PENDING.
Proof. by destruct st. Qed.

(** The three ways a poll can go, on any table. *)
Lemma poll_cases m tool_call_id :
  let r := case_poll_tool_result tool_call_id m in
  (outcome r = inl (KeyError tool_call_id) ∧ after r = m ∧ events r = []
   ∧ tool_call_id ≫= (hmap_call_id_to_results (engine m) !!.) = None)
  ∨ (outcome r = inr (Some [pending_block]) ∧ after r = m ∧ events r = []
     ∧ ∃ k rec, tool_call_id = Some k
                ∧ hmap_call_id_to_results (engine m) !! k = Some rec
                ∧ status rec = PENDING)
  ∨ (∃ k rec, tool_call_id = Some k
              ∧ hmap_call_id_to_results (engine m) !! k = Some rec
              ∧ is_terminal (status rec) = true
              ∧ outcome r = inr (terminal_answer rec)
              ∧ after r = {| engine := without_record k (engine m);
                             world := world m |}
              ∧ events r = [EvTableDel k]).
Proof.
  cbv zeta.
  destruct (tool_call_id ≫= (hmap_call_id_to_results (engine m) !!.))
    as [rec|] eqn:T.
  - destruct tool_call_id as [k|]; [|done]. cbn [mbind option_bind] in T.
    destruct (is_terminal (status rec)) eqn:S.
    + right. right. exists k, rec. by rewrite (poll_terminal _ _ _ T S).
    + right. left. apply not_terminal in S.
      rewrite (poll_pending _ _ _ T S). repeat split. by exists k, rec.
  - left. by rewrite poll_unknown_task.
Qed.

Lemma match_action_frame m action session tool_name tool_arguments tool_call_id
    timeout :
  let r := match_action action session tool_name tool_arguments tool_call_id
             timeout m in
  hmap_mcp_server_to_session (engine (after r))
  = hmap_mcp_server_to_session (engine m)
  ∧ stack_handler (engine (after r)) = stack_handler (engine m)
  ∧ (is_inl_run r -> engine (after r) = engine m)
  ∧ (action ∈ stateless_actions -> engine (after r) = engine m).
Proof.
  cbv zeta. unfold match_action, is_inl_run.
  destruct (String.eqb_spec action "list_tools") as [->|N1].
  { destruct (list_tools session (world m)) as [[e|l] w'] eqn:L.
    - destruct (listing_fails _ _ _ _ L) as (-> & _). by repeat split.
    - rewrite (list_tools_run _ _ _ _ L). by repeat split. }
  destruct (String.eqb_spec action "get_description") as [->|N2].
  { destruct (list_tools session (world m)) as [[e|l] w'] eqn:L.
    - destruct (listing_fails _ _ _ _ L) as (_ & -> & _). by repeat split.
    - rewrite (get_description_run _ _ _ _ _ L). by repeat split. }
  destruct (String.eqb_spec action "get_tool_schema") as [->|N3].
  { destruct (list_tools session (world m)) as [[e|l] w'] eqn:L.
    - destruct (listing_fails _ _ _ _ L) as (_ & _ & ->). by repeat split.
    - rewrite (get_tool_schema_run _ _ _ _ _ L). by repeat split. }
  destruct (String.eqb_spec action "execute_tool") as [->|N4].
  { destruct (call_tool session tool_name tool_arguments (world m)) as [r w'] eqn:C.
    rewrite (execute_tool_run _ _ _ _ _ _ C). by repeat split. }
  assert (action ∉ stateless_actions) as N.
  { unfold stateless_actions. intros I.
    repeat (apply elem_of_cons in I as [->|I]; [done|]). by apply elem_of_nil in I. }
  destruct (String.eqb_spec action "spawn_tool_in_background") as [->|N5].
  { rewrite spawn_run. cbn [outcome after engine]. repeat split; try done.
    by intros [e [=]]. }
  destruct (poll_cases m tool_call_id)
    as [(_ & -> & _)|[(_ & -> & _)|(k & rec & _ & _ & _ & O & -> & _)]];
    repeat split; try done.
  intros [e E]. by rewrite O in E.
Qed.

(** A call ends in validation, with nothing done, or is the [match] on the
    session found. *)
Lemma router_split m server_name action tool_name tool_arguments tool_call_id
    timeout :
  let r := mcp_router server_name action tool_name tool_arguments tool_call_id
             timeout m in
  (∃ e, r = {| outcome := inl e; after := m; events := [] |})
  ∨ (∃ session, hmap_mcp_server_to_session (engine m) !! server_name = Some session
                ∧ action_supported action = true
                ∧ r = match_action action session tool_name (decoded tool_arguments)
                        tool_call_id timeout m).
Proof.
  cbv zeta. destruct (action_supported action) eqn:A.
  - destruct (decode_error tool_arguments) as [msg|] eqn:D.
    + left. eexists. by apply router_malformed.
    + destruct (hmap_mcp_server_to_session (engine m) !! server_name)
        as [session|] eqn:R.
      * right. exists session. repeat split; try done. by apply router_validated.
      * left. eexists. by apply router_unknown_backend.
  - left. eexists. by apply router_unsupported.
Qed.

(** The event loop running a task that was not cancelled. *)
Lemma step_task_pending i t m m' evs :
  background_tasks (engine m) !! i = Some t ->
  task_state t = TaskPending ->
  background_tool_execution false (task_call_id t) (task_session t)
    (task_tool_name t) (task_tool_arguments t) (task_timeout t) m
  = {| outcome := inr tt; after := m'; events := evs |} ->
  step_task i m
  = {| outcome := inr tt;
       after := {| engine :=
                     {| hmap_mcp_server_to_session :=
                          hmap_mcp_server_to_session (engine m');
                        hmap_call_id_to_results := hmap_call_id_to_results (engine m');
                        background_tasks :=
                          <[i := set_task_state TaskFinished t]>
                            (background_tasks (engine m'));
                        stack_handler := stack_handler (engine m') |};
                   world := world m' |};
       events := (evs ++ [EvTaskDone (task_call_id t) TaskFinished])%list |}.
Proof.
  intros I S B. unfold step_task, bind at 1, get_engine at 1.
  rewrite I. unfold bind at 1. rewrite (run_task_pending _ _ _ _ S B).
  destruct m' as [eng' w']. step. by rewrite app_nil_r.
Qed.

(** A spawned call whose execution ends by writing [rec]. *)
Lemma spawn_run_poll_run m q server_name rec w evs :
  valid_request m q ->
  registered m server_name ->
  is_terminal (status rec) = true ->
  let id := (uuid4 (world m)).1 in
  (∀ m1, world m1 = (uuid4 (world m)).2 ->
     background_tool_execution false id (session_of (engine m) q) (rq_tool q)
       (decoded (rq_arguments q)) (rq_timeout q) m1
     = {| outcome := inr tt;
          after := {| engine := with_record id rec (engine m1); world := w |};
          events := evs |}) ->
  spawn_run_poll q server_name m
  = {| outcome := inr (terminal_answer rec);
       after :=
         {| engine :=
              {| hmap_mcp_server_to_session := hmap_mcp_server_to_session (engine m);
                 hmap_call_id_to_results :=
                   delete id (hmap_call_id_to_results (engine m));
                 background_tasks :=
                   (background_tasks (engine m)
                    ++ [set_task_state TaskFinished (task_of (engine m) id q)])%list;
                 stack_handler := stack_handler (engine m) |};
            world := w |};
       events := (spawn_events id ++ evs
                  ++ [EvTaskDone id TaskFinished; EvTableDel id])%list |}.
Proof.
  intros V R S id B. unfold spawn_run_poll.
  unfold bind at 1. rewrite (spawn_request_run _ _ V). fold id.
  unfold bind at 1.
  erewrite (step_task_pending _ (task_of (engine m) id q)); cycle 1.
  - cbn [engine with_spawn background_tasks].
    by apply list_lookup_middle.
  - done.
  - apply B. done.
  - rewrite router_poll by done.
    rewrite (poll_terminal _ id rec); [|cbn; apply lookup_insert_eq|done].
    cbn [outcome after events engine world without_record with_record with_spawn
         hmap_mcp_server_to_session stack_handler
         hmap_call_id_to_results background_tasks task_of spawned_task
         task_call_id app].
    rewrite insert_insert_eq. unfold without_record.
    cbn [hmap_mcp_server_to_session hmap_call_id_to_results background_tasks
         stack_handler].
    rewrite delete_insert_eq.
    rewrite <- (Nat.add_0_r (List.length (background_tasks (engine m)))).
    rewrite insert_app_r. cbn [insert list_insert].
    by rewrite <- !app_assoc.
Qed.

Lemma shut_task_idemp t : shut_task (shut_task t) = shut_task t.
Proof.
  unfold shut_task at 1. by rewrite shut_task_done.
Qed.

Lemma outstanding_shut ts : outstanding (map shut_task ts) = [].
Proof.
  unfold outstanding. induction ts as [|t ts IH]; [done|].
  cbn [map List.filter]. by rewrite shut_task_done.
Qed.

Lemma shutdown_events_quiet ts rs :
  Forall (fun ev => contacts_backend ev = false)
    (cancel_events ts ++ done_events ts ++ release_events rs).
Proof.
  rewrite !Forall_app. unfold cancel_events, done_events, release_events.
  repeat split; apply Forall_fmap, Forall_forall; by intros.
Qed.

(** ** The front end *)

(** X1: [start_engine] with a transport other than "http" and "stdio" raises
    [ValueError] naming the transport, before the application is run at all
    and with the engine left as it was. *)
Theorem start_engine_rejects_transport m transport host port :
  transport ∉ supported_transports ->
  let r := start_engine transport host port m in
  outcome r = inl (ValueError ("Unsupported transport: " ++ transport ++
                               ", value must be one of ['http', 'stdio']"))
  ∧ untouched m r.
Proof.
  intros N r. subst r. unfold start_engine.
  destruct (existsb (String.eqb transport) supported_transports) eqn:X; [|done].
  exfalso. apply N. apply existsb_exists in X as (t & I & E).
  apply String.eqb_eq in E as ->. by apply list_elem_of_In.
Qed.

(** X2: with "stdio" the application is run once, without host and port.
    With "http" it is run with the host and port given and, when that run
    returns, run a second time over "http" without them: the second
    [run_async] is not in an [else] branch.  An exception of a run reaches
    the caller, and the application is not run again after it. *)
Theorem start_engine_serves m host port :
  let stdio := start_engine "stdio" host port m in
  let http := start_engine "http" host port m in
  let first := run_async "http" host port (world m) in
  events stdio = [EvRunAsync "stdio" None None]
  ∧ outcome stdio = (run_async "stdio" None None (world m)).1
  ∧ match first.1 with
    | inr _ => events http = [EvRunAsync "http" host port; EvRunAsync "http" None None]
               ∧ outcome http = (run_async "http" None None first.2).1
    | inl e => events http = [EvRunAsync "http" host port]
               ∧ outcome http = inl e
    end.
Proof.
  cbv zeta. open_machine m. unfold start_engine.
  cbn [supported_transports existsb String.eqb Ascii.eqb Bool.eqb orb negb].
  step. repeat split.
  - by destruct (run_async "stdio" None None w) as [[?|?] ?].
  - by destruct (run_async "stdio" None None w) as [[?|?] ?].
  - destruct (run_async "http" host port w) as [[e|[]] w1]; cbn [fst snd]; [done|].
    by destruct (run_async "http" None None w1) as [[?|?] ?].
Qed.

(** ** Startup *)

(** X3: [start_mcp_server] lets no [Exception] out, whichever of its four
    steps fails or runs out of time: it returns.  It changes neither the
    registry nor the task table nor the tracked tasks, and what it does to
    the exit stack is to push onto it. *)
Theorem start_mcp_server_contains_failures mcp_server m :
  let r := start_mcp_server mcp_server m in
  (∀ e, outcome r = inl e -> is_Exception e = false)
  ∧ hmap_mcp_server_to_session (engine (after r))
    = hmap_mcp_server_to_session (engine m)
  ∧ hmap_call_id_to_results (engine (after r)) = hmap_call_id_to_results (engine m)
  ∧ background_tasks (engine (after r)) = background_tasks (engine m)
  ∧ ∃ new, stack_handler (engine (after r))
           = (new ++ stack_handler (engine m))%list.
Proof.
  destruct (start_mcp_server_cases mcp_server m) as (X & R & T & B & S & _).
  by repeat split.
Qed.

(** X4: when [start_mcp_server] returns a session, the four steps were all
    taken, in order (launch, session, initialize, listing), and the session
    is on top of the exit stack with its transport under it. *)
Theorem start_mcp_server_success_steps mcp_server m session :
  outcome (start_mcp_server mcp_server m) = inr (Some session) ->
  let r := start_mcp_server mcp_server m in
  ∃ t, stack_handler (engine (after r))
       = ClientSessionCtx session :: StdioTransport t :: stack_handler (engine m)
       ∧ events r = [EvStdioClient (server_params mcp_server); EvSessionEnter t;
                     EvInitialize session; EvListTools session].
Proof.
  intros O. destruct (start_mcp_server_cases mcp_server m) as (_ & _ & _ & _ & _ & S).
  by apply S.
Qed.

(** X5: a backend whose transport opens and whose session then fails to
    open is reported as not started, and is not registered; but its
    transport has been pushed on the exit stack and stays there: nothing is
    released before shutdown. *)
Theorem failed_start_keeps_transport mcp_server m w1 w2 w3 w4 t e :
  deadline_passes (timeout mcp_server) (world m) = (false, w1) ->
  stdio_client (server_params mcp_server) w1 = (inr t, w2) ->
  deadline_passes (timeout mcp_server) w2 = (false, w3) ->
  client_session t w3 = (inl e, w4) ->
  is_Exception e = true ->
  let r := start_mcp_server mcp_server m in
  outcome r = inr None
  ∧ stack_handler (engine (after r)) = StdioTransport t :: stack_handler (engine m)
  ∧ hmap_mcp_server_to_session (engine (after r))
    = hmap_mcp_server_to_session (engine m)
  ∧ events r = [EvStdioClient (server_params mcp_server); EvSessionEnter t].
Proof.
  intros D1 S D2 C X r. subst r. open_machine m.
  unfold start_mcp_server. fold (server_params mcp_server). step.
  rewrite D1. step. rewrite S. step. rewrite D2. step. rewrite C. step.
  destruct e; try discriminate X; by repeat split.
Qed.

(** X6: whatever the backends do, [start_all_mcp_servers] leaves the task
    table and the tracked tasks as they were, only pushes onto the exit
    stack, and changes the registry at no name other than those of the
    configured servers. *)
Theorem startup_frame mcp_router_config m :
  let r := start_all_mcp_servers mcp_router_config m in
  hmap_call_id_to_results (engine (after r)) = hmap_call_id_to_results (engine m)
  ∧ background_tasks (engine (after r)) = background_tasks (engine m)
  ∧ (∃ new, stack_handler (engine (after r))
            = (new ++ stack_handler (engine m))%list)
  ∧ (∀ k, k ∉ map name (mcpServers mcp_router_config) ->
          hmap_mcp_server_to_session (engine (after r)) !! k
          = hmap_mcp_server_to_session (engine m) !! k).
Proof.
  cbv zeta. rewrite start_all_run. cbn [after].
  apply start_servers_frame.
Qed.

(** X7: when the launch of every configured backend fails, the summary is
    the marker "No MCP servers started successfully.", the engine is as it
    was, and nothing beyond the launches was asked of any backend.  The
    empty configuration is one such case. *)
Theorem startup_none_started mcp_router_config m :
  Forall (fun srv => ∀ w, ∃ e w', stdio_client (server_params srv) w = (inl e, w')
                                  ∧ is_Exception e = true)
    (mcpServers mcp_router_config) ->
  let r := start_all_mcp_servers mcp_router_config m in
  outcome r = inr no_servers_started
  ∧ engine (after r) = engine m
  ∧ Forall (fun ev => ∃ p, ev = EvStdioClient p) (events r).
Proof.
  intros F. cbv zeta. rewrite start_all_run. cbv zeta.
  destruct (start_servers_missing _ [] m F) as (-> & E & V).
  by repeat split.
Qed.

(** X8: if the listing of a session that has started cannot fail, startup
    is best-effort: no [Exception] a backend raises leaves
    [start_all_mcp_servers]. *)
Theorem startup_best_effort mcp_router_config m e :
  (∀ session w, ∃ listing w', list_tools session w = (inr listing, w')) ->
  is_Exception e = true ->
  outcome (start_all_mcp_servers mcp_router_config m) ≠ inl e.
Proof.
  intros L X. rewrite start_all_run. cbv zeta. cbn [outcome].
  destruct (outcome (start_servers _ [] m)) as [e'|info] eqn:O; [|done].
  intros [= ->]. apply (start_servers_best_effort _ _ _ L) in O.
  by rewrite O in X.
Qed.

(** X9: a backend that starts, and answers the listing asked for its
    summary line, is in the registry under its name when
    [start_all_mcp_servers] ends, whatever the servers configured after it
    do, unless one of them has the same name. *)
Theorem started_backend_is_registered mcp_server servers m session listing w :
  outcome (start_mcp_server mcp_server m) = inr (Some session) ->
  list_tools session (world (after (start_mcp_server mcp_server m)))
  = (inr listing, w) ->
  name mcp_server ∉ map name servers ->
  let r := start_all_mcp_servers {| mcpServers := mcp_server :: servers |} m in
  hmap_mcp_server_to_session (engine (after r)) !! name mcp_server = Some session.
Proof.
  intros O L N. cbv zeta. rewrite start_all_run. cbv zeta. cbn [after mcpServers].
  rewrite start_servers_cons. cbv zeta. rewrite O, L. cbn [preceded after].
  destruct (start_servers_frame servers
              ([] ++ [server_info mcp_server (List.length (tools listing))])%list
              {| engine := with_backend (name mcp_server) session
                             (engine (after (start_mcp_server mcp_server m)));
                 world := w |}) as (_ & _ & _ & R).
  rewrite (R _ N). cbn [engine with_backend hmap_mcp_server_to_session].
  apply lookup_insert_eq.
Qed.

(** X10: a backend that does not start leaves the registry without an
    entry of its own: when [start_all_mcp_servers] ends, its name maps to
    what it mapped to before, unless a server configured after it has the
    same name. *)
Theorem failed_backend_not_registered mcp_server servers m :
  outcome (start_mcp_server mcp_server m) = inr None ->
  name mcp_server ∉ map name servers ->
  let r := start_all_mcp_servers {| mcpServers := mcp_server :: servers |} m in
  hmap_mcp_server_to_session (engine (after r)) !! name mcp_server
  = hmap_mcp_server_to_session (engine m) !! name mcp_server.
Proof.
  intros O N. cbv zeta. rewrite start_all_run. cbv zeta. cbn [after mcpServers].
  rewrite start_servers_cons. cbv zeta. rewrite O. cbn [preceded after].
  destruct (start_servers_frame servers [] (after (start_mcp_server mcp_server m)))
    as (_ & _ & _ & R).
  rewrite (R _ N).
  destruct (start_mcp_server_cases mcp_server m) as (_ & R' & _).
  by rewrite R'.
Qed.

(** ** Running a tool *)

(** X11: [run_tool] returns one block for each content block of the result,
    in order, each without its "annotations" and "meta" entries and with
    every other entry as the backend gave it. *)
Theorem run_tool_cleans_blocks m session tool_name tool_arguments result w' :
  call_tool session tool_name tool_arguments (world m) = (inr result, w') ->
  ∃ blocks,
    outcome (run_tool no_ctx session tool_name tool_arguments m) = inr blocks
    ∧ Forall2 (fun block given =>
                 ∀ k, dict_get k block
                      = if bool_decide (k ∈ ["annotations"; "meta"]) then None
                        else dict_get k given)
        blocks (content result).
Proof.
  intros C. exists (map clean_content (content result)). split.
  - open_machine m. unfold run_tool. step. by rewrite C.
  - apply Forall2_fmap_l, Forall_Forall2_diag, Forall_forall. intros given _ k.
    unfold clean_content. rewrite !dict_get_pop.
    destruct (String.eqb_spec k "meta") as [->|N1]; [done|].
    destruct (String.eqb_spec k "annotations") as [->|N2]; [done|].
    rewrite bool_decide_eq_false_2; [done|].
    intros I. repeat (apply elem_of_cons in I as [->|I]; [done|]).
    by apply elem_of_nil in I.
Qed.

(** X12: execute_tool calls the tool once, with the decoded arguments, and
    leaves the engine as it was: no record, no task.  A result comes back
    as its cleaned content blocks, also when it is flagged as an error; an
    exception of the call reaches the caller as it is. *)
Theorem execute_tool_passes_through m server_name tool_name tool_arguments
    tool_call_id timeout session answer w' :
  hmap_mcp_server_to_session (engine m) !! server_name = Some session ->
  decode_error tool_arguments = None ->
  call_tool session tool_name (decoded tool_arguments) (world m) = (answer, w') ->
  let r := mcp_router server_name "execute_tool" tool_name tool_arguments
             tool_call_id timeout m in
  engine (after r) = engine m
  ∧ events r = [EvCallTool session tool_name (decoded tool_arguments)]
  ∧ outcome r = match answer with
                | inl e => inl e
                | inr result => inr (Some (map clean_content (content result)))
                end.
Proof.
  intros R D C r. subst r.
  rewrite (router_validated _ _ _ _ _ _ _ session) by done.
  change (match_action "execute_tool" session tool_name (decoded tool_arguments)
            tool_call_id timeout)
    with (case_execute_tool session tool_name (decoded tool_arguments)).
  by rewrite (execute_tool_run _ _ _ _ _ _ C).
Qed.

(** ** What the router keeps *)

(** X13: no routed call, whatever its action and arguments, changes the
    registry or the exit stack; a call that raises leaves the whole engine
    as it was; and the four actions that only ask a backend leave it as it
    was in every case. *)
Theorem router_keeps_registry m server_name action tool_name tool_arguments
    tool_call_id timeout :
  let r := mcp_router server_name action tool_name tool_arguments tool_call_id
             timeout m in
  hmap_mcp_server_to_session (engine (after r))
  = hmap_mcp_server_to_session (engine m)
  ∧ stack_handler (engine (after r)) = stack_handler (engine m)
  ∧ (is_inl_run r -> engine (after r) = engine m)
  ∧ (action ∈ stateless_actions -> engine (after r) = engine m).
Proof.
  cbv zeta.
  destruct (router_split m server_name action tool_name tool_arguments
              tool_call_id timeout) as [[e ->]|(session & _ & _ & ->)].
  - by repeat split.
  - apply match_action_frame.
Qed.

(** X14: a poll for an id that has no record, or with no id at all, fails
    with a [KeyError] for that id and changes nothing. *)
Theorem poll_unknown_id m server_name tool_name tool_arguments tool_call_id
    timeout :
  registered m server_name ->
  decode_error tool_arguments = None ->
  tool_call_id ≫= (hmap_call_id_to_results (engine m) !!.) = None ->
  let r := mcp_router server_name "poll_tool_result" tool_name tool_arguments
             tool_call_id timeout m in
  outcome r = inl (KeyError tool_call_id) ∧ untouched m r.
Proof.
  intros R D T r. subst r. rewrite router_poll by done.
  by rewrite poll_unknown_task.
Qed.

(** X15: a poll changes no record but the one it names, and never the
    tracked tasks, whatever state that record is in and whether or not the
    call gets past validation. *)
Theorem poll_leaves_other_records m server_name tool_name tool_arguments
    tool_call_id timeout k :
  tool_call_id ≠ Some k ->
  let r := mcp_router server_name "poll_tool_result" tool_name tool_arguments
             tool_call_id timeout m in
  hmap_call_id_to_results (engine (after r)) !! k
  = hmap_call_id_to_results (engine m) !! k
  ∧ background_tasks (engine (after r)) = background_tasks (engine m).
Proof.
  intros N. cbv zeta.
  destruct (router_split m server_name "poll_tool_result" tool_name tool_arguments
              tool_call_id timeout) as [[e ->]|(session & _ & _ & ->)]; [done|].
  change (match_action "poll_tool_result" session tool_name
            (decoded tool_arguments) tool_call_id timeout m)
    with (case_poll_tool_result tool_call_id m).
  destruct (poll_cases m tool_call_id)
    as [(_ & -> & _)|[(_ & -> & _)|(k' & rec & -> & _ & _ & _ & -> & _)]];
    try done.
  cbn [after engine without_record hmap_call_id_to_results background_tasks].
  split; [|done]. apply lookup_delete_ne. by intros ->.
Qed.

(** X16: the parameters an action has no use for make no difference to a
    call: [timeout] to any action but spawn_tool_in_background,
    [tool_call_id] to any action but poll_tool_result (a spawn does not
    take the id it is given), and [tool_name] to list_tools and
    poll_tool_result. *)
Theorem unused_parameters_ignored m server_name action tool_name tool_name'
    tool_arguments tool_call_id tool_call_id' timeout timeout' :
  let call := mcp_router server_name action in
  (action ≠ "spawn_tool_in_background" ->
     call tool_name tool_arguments tool_call_id timeout m
     = call tool_name tool_arguments tool_call_id timeout' m)
  ∧ (action ≠ "poll_tool_result" ->
     call tool_name tool_arguments tool_call_id timeout m
     = call tool_name tool_arguments tool_call_id' timeout m)
  ∧ (action = "list_tools" ∨ action = "poll_tool_result" ->
     call tool_name tool_arguments tool_call_id timeout m
     = call tool_name' tool_arguments tool_call_id timeout m).
Proof.
  cbv zeta.
  destruct (action_supported action) eqn:A;
    [|rewrite !router_unsupported by done; done].
  destruct (decode_error tool_arguments) as [msg|] eqn:D;
    [rewrite !(router_malformed _ _ _ _ _ _ _ msg) by done; done|].
  destruct (hmap_mcp_server_to_session (engine m) !! server_name)
    as [session|] eqn:R;
    [|rewrite !router_unknown_backend by done; done].
  rewrite !(router_validated _ _ _ _ _ _ _ session) by done.
  unfold match_action. repeat split.
  - intros N.
    repeat match goal with
           | |- context [String.eqb action ?s] =>
               destruct (String.eqb_spec action s) as [?|?];
               [cbv iota; first [done | congruence]|]
           end.
    done.
  - intros N.
    repeat match goal with
           | |- context [String.eqb action ?s] =>
               destruct (String.eqb_spec action s) as [?|?];
               [cbv iota; first [done | congruence]|]
           end.
    apply supported_iff in A. unfold supported_actions in A.
    repeat (apply elem_of_cons in A as [?|A]; [done|]). by apply elem_of_nil in A.
  - by intros [-> | ->].
Qed.

(** ** What a background execution keeps *)

(** X17: [background_tool_execution] lets no [Exception] out to the event
    loop; it changes neither the registry nor the tracked tasks nor the
    exit stack, and no record other than the one under its own id, which
    when it changes becomes a record in a terminal state. *)
Theorem execution_contained m cancelled call_id session tool_name tool_arguments
    timeout :
  let r := background_tool_execution cancelled call_id session tool_name
             tool_arguments timeout m in
  let eng' := engine (after r) in
  (∀ e, outcome r = inl e -> is_Exception e = false)
  ∧ hmap_mcp_server_to_session eng' = hmap_mcp_server_to_session (engine m)
  ∧ background_tasks eng' = background_tasks (engine m)
  ∧ stack_handler eng' = stack_handler (engine m)
  ∧ (∀ k, k ≠ call_id ->
          hmap_call_id_to_results eng' !! k
          = hmap_call_id_to_results (engine m) !! k)
  ∧ (hmap_call_id_to_results eng' !! call_id
     = hmap_call_id_to_results (engine m) !! call_id
     ∨ ∃ rec, hmap_call_id_to_results eng' !! call_id = Some rec
              ∧ is_terminal (status rec) = true).
Proof.
  cbv zeta.
  destruct (execution_ends m cancelled call_id session tool_name tool_arguments
              timeout) as [m' evs e X _ E|m' evs rec S _ E];
    cbn [outcome after]; rewrite E.
  - repeat split; try done; [by intros ? [= <-] | by left].
  - cbn [with_record hmap_mcp_server_to_session hmap_call_id_to_results
         background_tasks stack_handler].
    repeat split; try done.
    + intros k N. by apply lookup_insert_ne.
    + right. exists rec. split; [apply lookup_insert_eq | done].
Qed.

(** ** A spawned call from start to end *)

(** X18: a call that is spawned, run by the event loop and answered in time
    is read by the next poll, through any registered backend, and its
    record removed.  What the poll returns follows the validation in the
    constructor of the COMPLETED record: an answer without content blocks
    is returned as the empty list; for an answer with a content block that
    has no [content] entry of its own, as the blocks of the MCP types have
    none, the poll returns one block with the status FAILED and the text of
    the validation error, and not the content of the answer. *)
Theorem spawned_call_answered m q server_name w1 w2 result :
  valid_request m q ->
  registered m server_name ->
  deadline_passes (rq_timeout q) (uuid4 (world m)).2 = (false, w1) ->
  call_tool (session_of (engine m) q) (rq_tool q) (decoded (rq_arguments q)) w1
  = (inr result, w2) ->
  let id := (uuid4 (world m)).1 in
  let r := spawn_run_poll q server_name m in
  let rejected msg :=
    Some [text_block (PStr (error_notice FAILED
                              (Some (py_str (validation_error msg)))))] in
  hmap_call_id_to_results (engine (after r))
  = delete id (hmap_call_id_to_results (engine m))
  ∧ background_tasks (engine (after r))
    = (background_tasks (engine m)
       ++ [set_task_state TaskFinished (task_of (engine m) id q)])%list
  ∧ outcome r
    = inr (match validate_results (map clean_content (content result)) with
           | inr models => Some models
           | inl msg => rejected msg
           end)
  ∧ (content result = [] -> outcome r = inr (Some []))
  ∧ (∀ block, In block (content result) -> dict_get "content" block = None ->
       ∃ msg, outcome r = inr (rejected msg)).
Proof.
  intros V R H C id r rejected. subst r.
  pose (rec := match validate_results (map clean_content (content result)) with
               | inr models => completed_record models
               | inl msg => failed_record (validation_error msg)
               end).
  assert (is_terminal (status rec) = true) as S.
  { subst rec. by destruct (validate_results _). }
  rewrite (spawn_run_poll_run m q server_name rec w2
             [EvCallTool (session_of (engine m) q) (rq_tool q)
                (decoded (rq_arguments q));
              EvTableSet id (status rec)] V R S); cycle 1.
  { intros m1 W. rewrite (execution_returns _ _ _ _ _ _ w1 w2 result);
      by rewrite ?W. }
  cbn [outcome after engine hmap_call_id_to_results background_tasks].
  assert (terminal_answer rec
          = match validate_results (map clean_content (content result)) with
            | inr models => Some models
            | inl msg => rejected msg
            end) as A.
  { subst rec. by destruct (validate_results _). }
  rewrite A. repeat split.
  - intros E. rewrite E. cbn [map]. by rewrite validate_results_nil.
  - intros block I N.
    destruct (validate_results_content (map clean_content (content result))
                (clean_content block)) as [msg X].
    + by apply in_map.
    + unfold clean_content. by rewrite !dict_get_pop, N.
    + exists msg. by rewrite X.
Qed.

(** X19: when the call of a spawned task raises an exception, the next poll
    returns one block with the status and the message and removes the
    record: TIMEOUT with the message naming the duration for a timeout
    error, FAILED with [str(e)] for any other. *)
Theorem spawned_call_fails m q server_name w1 w2 e :
  valid_request m q ->
  registered m server_name ->
  deadline_passes (rq_timeout q) (uuid4 (world m)).2 = (false, w1) ->
  call_tool (session_of (engine m) q) (rq_tool q) (decoded (rq_arguments q)) w1
  = (inl e, w2) ->
  is_Exception e = true ->
  let id := (uuid4 (world m)).1 in
  let r := spawn_run_poll q server_name m in
  outcome r
  = inr (Some [text_block
                 (PStr (if is_TimeoutError e
                        then error_notice TIMEOUT
                               (Some (timeout_message (rq_timeout q)))
                        else error_notice FAILED (Some (py_str e))))])
  ∧ hmap_call_id_to_results (engine (after r))
    = delete id (hmap_call_id_to_results (engine m))
  ∧ table_writes (events r)
    = [(id, PENDING); (id, if is_TimeoutError e then TIMEOUT else FAILED)].
Proof.
  intros V R H C X id r. subst r.
  pose (rec := if is_TimeoutError e then timeout_record (rq_timeout q)
               else failed_record e).
  rewrite (spawn_run_poll_run m q server_name rec w2
             [EvCallTool (session_of (engine m) q) (rq_tool q)
                (decoded (rq_arguments q));
              EvTableSet id (status rec)]).
  - subst rec. by destruct (is_TimeoutError e).
  - done.
  - done.
  - subst rec. by destruct (is_TimeoutError e).
  - intros m1 W. rewrite (execution_raises _ _ _ _ _ _ w1 w2 e); rewrite ?W; try done.
    cbv zeta. rewrite X. subst rec. by destruct (is_TimeoutError e).
Qed.

(** X20: when the deadline of a spawned task passes before its call has
    returned, the call is given up and whatever it would have answered is
    not recorded: the next poll returns one block with the status TIMEOUT
    and the message naming the duration the task was spawned with, and
    removes the record. *)
Theorem spawned_call_times_out m q server_name w1 :
  valid_request m q ->
  registered m server_name ->
  deadline_passes (rq_timeout q) (uuid4 (world m)).2 = (true, w1) ->
  let id := (uuid4 (world m)).1 in
  let r := spawn_run_poll q server_name m in
  outcome r
  = inr (Some [text_block
                 (PStr (error_notice TIMEOUT
                          (Some ("Tool execution exceeded timeout of "
                                 ++ float_repr (rq_timeout q) ++ " seconds."))))])
  ∧ hmap_call_id_to_results (engine (after r))
    = delete id (hmap_call_id_to_results (engine m))
  ∧ events r
    = [EvCreateTask id; EvTableSet id PENDING;
       EvCallTool (session_of (engine m) q) (rq_tool q) (decoded (rq_arguments q));
       EvTableSet id TIMEOUT; EvTaskDone id TaskFinished; EvTableDel id]
  ∧ world (after r) = w1.
Proof.
  intros V R H id r. subst r.
  rewrite (spawn_run_poll_run m q server_name (timeout_record (rq_timeout q)) w1
             [EvCallTool (session_of (engine m) q) (rq_tool q)
                (decoded (rq_arguments q));
              EvTableSet id TIMEOUT]); try done.
  intros m1 W. apply execution_deadline. by rewrite W.
Qed.

(** ** Shutdown *)

(** X21: a task that is spawned and still waiting when the engine shuts
    down ends cancelled: it is cancelled together with the others, the
    shutdown launches, lists and calls nothing, so its tool is never
    called, and its record is left in the table as PENDING. *)
Theorem spawn_then_shutdown m q exc :
  valid_request m q ->
  let id := (uuid4 (world m)).1 in
  let r := aexit exc (after (spawn q m)) in
  hmap_call_id_to_results (engine (after r)) !! id = Some pending_record
  ∧ background_tasks (engine (after r))
    = (map shut_task (background_tasks (engine m))
       ++ [set_task_state TaskCancelled (task_of (engine m) id q)])%list
  ∧ EvCancel id ∈ events r
  ∧ Forall (fun ev => contacts_backend ev = false) (events r).
Proof.
  intros V id r. subst r. rewrite (spawn_request_run _ _ V). fold id.
  rewrite aexit_run.
  cbn [outcome after events engine world shut_down with_spawn
       hmap_call_id_to_results background_tasks stack_handler task_of
       spawned_task task_call_id].
  repeat split.
  - apply lookup_insert_eq.
  - by rewrite map_app.
  - apply elem_of_app. left. unfold cancel_events, outstanding.
    rewrite List.filter_app, map_app. apply elem_of_app. right. left.
  - apply shutdown_events_quiet.
Qed.

(** X22: shutting down twice is shutting down once: the second
    [__aexit__] cancels nothing, releases nothing and changes nothing.
    The first one keeps the registry and the task table as they are, also
    for the sessions it has released. *)
Theorem shutdown_twice m exc exc' :
  let r := aexit exc m in
  aexit exc' (after r) = {| outcome := inr tt; after := after r; events := [] |}
  ∧ hmap_mcp_server_to_session (engine (after r))
    = hmap_mcp_server_to_session (engine m)
  ∧ hmap_call_id_to_results (engine (after r))
    = hmap_call_id_to_results (engine m).
Proof.
  cbv zeta. rewrite !aexit_run. cbn [after engine world]. repeat split.
  unfold cancel_events, done_events, shut_down.
  cbn [background_tasks stack_handler hmap_mcp_server_to_session
       hmap_call_id_to_results].
  rewrite outstanding_shut. cbn [map app release_events].
  rewrite List.map_map.
  rewrite (List.map_ext _ shut_task shut_task_idemp). done.
Qed.

(** ** The cases of one background execution *)

(** X23: one background execution assigns to the task table at most once,
    under its own id.  It writes nothing when the task was cancelled before
    it ran or the call ends with an exception that is not an [Exception];
    TIMEOUT with the message naming the duration when the deadline passes
    or the call raises [TimeoutError]; FAILED with [str(e)] when the call
    raises any other exception [e], and also when the call returns and the
    constructor of the COMPLETED record rejects the cleaned blocks;
    COMPLETED, whatever the result's [isError] flag says, only when the
    call returns and the cleaned blocks pass that validation. *)
Theorem execution_writes_at_most_once m cancelled call_id session tool_name
    tool_arguments timeout :
  let r := background_tool_execution cancelled call_id session tool_name
             tool_arguments timeout m in
  let expired := (deadline_passes timeout (world m)).1 in
  let answer := (call_tool session tool_name tool_arguments
                   (deadline_passes timeout (world m)).2).1 in
  let written rec :=
    outcome r = inr tt
    ∧ table_writes (events r) = [(call_id, status rec)]
    ∧ engine (after r) = with_record call_id rec (engine m) in
  let nothing e :=
    outcome r = inl e
    ∧ table_writes (events r) = []
    ∧ engine (after r) = engine m in
  (List.length (table_writes (events r)) <= 1)%nat
  ∧ if cancelled then nothing CancelledError
    else if expired then written (timeout_record timeout)
    else match answer with
         | inr result =>
             match validate_results (map clean_content (content result)) with
             | inr models => written (completed_record models)
             | inl msg => written (failed_record (validation_error msg))
             end
         | inl e =>
             if is_TimeoutError e then written (timeout_record timeout)
             else if is_Exception e then written (failed_record e)
             else nothing e
         end.
Proof.
  cbv zeta. split.
  - destruct (execution_ends m cancelled call_id session tool_name tool_arguments
                timeout) as [? ? ? _ W _|? ? ? _ W _]; cbn [events]; rewrite W; cbn; lia.
  - destruct cancelled; [by rewrite execution_cancelled|].
    destruct (deadline_passes timeout (world m)) as [[] w] eqn:H; cbn [fst snd].
    { by rewrite (execution_deadline _ _ _ _ _ _ _ H). }
    destruct (call_tool session tool_name tool_arguments w) as [[e|result] w'] eqn:C;
      cbn [fst].
    + rewrite (execution_raises _ _ _ _ _ _ _ _ _ H C). cbv zeta.
      destruct (is_TimeoutError e); [done|]. by destruct (is_Exception e).
    + rewrite (execution_returns _ _ _ _ _ _ _ _ _ H C). cbv zeta.
      by destruct (validate_results _).
Qed.

End Further.

(** * The further properties on concrete runs *)

Section FurtherRuns.
Import Replay.
#[local] Existing Instance Local.local.

Lemma start_engine_rejects_transport_witness :
  outcome (start_engine "sse" (Some "0.0.0.0") (Some 8000%Z) (machine two_backends []))
  = inl (ValueError "Unsupported transport: sse, value must be one of ['http', 'stdio']").
Proof.
  apply (start_engine_rejects_transport (machine two_backends []) "sse").
  apply (bool_decide_unpack _). vm_compute. reflexivity.
Defined.

Lemma start_mcp_server_success_steps_witness :
  let r := start_mcp_server alpha (machine new_engine (starts 7 [ping])) in
  ∃ t, stack_handler (engine (after r))
       = ClientSessionCtx 7 :: StdioTransport t
         :: stack_handler (engine (machine new_engine (starts 7 [ping])))
       ∧ events r = [EvStdioClient (server_params alpha); EvSessionEnter t;
                     EvInitialize 7; EvListTools 7].
Proof.
  apply (start_mcp_server_success_steps alpha (machine new_engine (starts 7 [ping])) 7).
  vm_compute. reflexivity.
Defined.

Lemma failed_start_keeps_transport_witness :
  let m := machine new_engine
             [Deadline false; Stdio (inr 3); Deadline false;
              Entered (inl connection_closed)] in
  let r := start_mcp_server alpha m in
  outcome r = inr None
  ∧ stack_handler (engine (after r)) = StdioTransport 3 :: stack_handler (engine m)
  ∧ hmap_mcp_server_to_session (engine (after r))
    = hmap_mcp_server_to_session (engine m)
  ∧ events r = [EvStdioClient (server_params alpha); EvSessionEnter 3].
Proof.
  intros m.
  exact (failed_start_keeps_transport alpha m
           [Stdio (inr 3); Deadline false; Entered (inl connection_closed)]
           [Deadline false; Entered (inl connection_closed)]
           [Entered (inl connection_closed)] [] 3 connection_closed
           eq_refl eq_refl eq_refl eq_refl eq_refl).
Defined.

Lemma startup_none_started_witness :
  let r := start_all_mcp_servers {| mcpServers := [Local.missing; Local.missing] |}
             (Local.machine new_engine 0) in
  outcome r = inr no_servers_started
  ∧ engine (after r) = engine (Local.machine new_engine 0)
  ∧ Forall (fun ev => ∃ p, ev = EvStdioClient p) (events r).
Proof.
  apply (startup_none_started {| mcpServers := [Local.missing; Local.missing] |}
           (Local.machine new_engine 0)).
  repeat constructor; intros w; exists Local.not_found, w; split; reflexivity.
Defined.

Lemma startup_best_effort_witness :
  outcome (start_all_mcp_servers {| mcpServers := [Local.missing; Local.present] |}
             (Local.machine new_engine 0))
  ≠ inl Local.not_found.
Proof.
  apply (startup_best_effort {| mcpServers := [Local.missing; Local.present] |}
           (Local.machine new_engine 0) Local.not_found).
  - intros session w. by exists {| tools := [Local.echo] |}, w.
  - reflexivity.
Defined.

Lemma started_backend_is_registered_witness :
  let m := machine new_engine
             (starts 1 [ping; sum] ++ [Listed (inr {| tools := [ping; sum] |})])%list in
  let r := start_all_mcp_servers {| mcpServers := [alpha; beta] |} m in
  hmap_mcp_server_to_session (engine (after r)) !! "alpha" = Some 1.
Proof.
  intros m.
  apply (started_backend_is_registered alpha [beta] m 1 {| tools := [ping; sum] |} []).
  - vm_compute. reflexivity.
  - vm_compute. reflexivity.
  - apply (bool_decide_unpack _). vm_compute. reflexivity.
Defined.

Lemma failed_backend_not_registered_witness :
  let m := machine new_engine [Deadline false; Stdio (inl connection_closed)] in
  let r := start_all_mcp_servers {| mcpServers := [alpha; beta] |} m in
  hmap_mcp_server_to_session (engine (after r)) !! "alpha"
  = hmap_mcp_server_to_session (engine m) !! "alpha".
Proof.
  intros m.
  apply (failed_backend_not_registered alpha [beta] m).
  - vm_compute. reflexivity.
  - apply (bool_decide_unpack _). vm_compute. reflexivity.
Defined.

Lemma run_tool_cleans_blocks_witness :
  let answer := {| content := [echo_block]; isError := false |} in
  ∃ blocks,
    outcome (run_tool no_ctx 1 (Some "ping") None
               (machine two_backends [Called (inr answer)])) = inr blocks
    ∧ Forall2 (fun block given =>
                 ∀ k, dict_get k block
                      = if bool_decide (k ∈ ["annotations"; "meta"]) then None
                        else dict_get k given)
        blocks (content answer).
Proof.
  intros answer.
  apply (run_tool_cleans_blocks (machine two_backends [Called (inr answer)]) 1
           (Some "ping") None answer []).
  reflexivity.
Defined.

Lemma execute_tool_passes_through_witness :
  let refused := {| content := [echo_block]; isError := true |} in
  let m := machine busy [Called (inr refused)] in
  let r := mcp_router "fast" "execute_tool" (Some "ping") (Some "{}") None sixty m in
  engine (after r) = engine m
  ∧ events r = [EvCallTool 1 (Some "ping") (Some (PDict []))]
  ∧ outcome r = inr (Some (map clean_content (content refused))).
Proof.
  intros refused m.
  assert (hmap_mcp_server_to_session (engine m) !! "fast" = Some 1) as R
    by (vm_compute; reflexivity).
  exact (execute_tool_passes_through m "fast" (Some "ping") (Some "{}") None sixty 1
           (inr refused) [] R eq_refl eq_refl).
Defined.

Lemma poll_unknown_id_witness :
  let m := machine busy [] in
  let r := mcp_router "fast" "poll_tool_result" None None None sixty m in
  outcome r = inl (KeyError None) ∧ untouched m r.
Proof.
  intros m.
  apply (poll_unknown_id m "fast" None None None sixty).
  - eexists. vm_compute. reflexivity.
  - reflexivity.
  - reflexivity.
Defined.

Lemma poll_leaves_other_records_witness :
  let m := machine busy [] in
  let r := mcp_router "fast" "poll_tool_result" None None (Some "id-done") sixty m in
  hmap_call_id_to_results (engine (after r)) !! "id-lost"
  = hmap_call_id_to_results (engine m) !! "id-lost"
  ∧ background_tasks (engine (after r)) = background_tasks (engine m).
Proof.
  intros m.
  apply (poll_leaves_other_records m "fast" None None (Some "id-done") sixty "id-lost").
  discriminate.
Defined.

Lemma unused_parameters_ignored_witness :
  let m := machine busy [Called (inl connection_closed)] in
  mcp_router "fast" "execute_tool" (Some "ping") None None sixty m
  = mcp_router "fast" "execute_tool" (Some "ping") None None (Float "0.001") m
  ∧ mcp_router "fast" "execute_tool" (Some "ping") None None sixty m
    = mcp_router "fast" "execute_tool" (Some "ping") None (Some "id-done") sixty m
  ∧ mcp_router "fast" "poll_tool_result" None None (Some "id-done") sixty m
    = mcp_router "fast" "poll_tool_result" (Some "ping") None (Some "id-done") sixty m.
Proof.
  intros m. split; [|split].
  - destruct (unused_parameters_ignored m "fast" "execute_tool" (Some "ping") None
                None None None sixty (Float "0.001")) as (T & _ & _).
    apply T. discriminate.
  - destruct (unused_parameters_ignored m "fast" "execute_tool" (Some "ping") None
                None None (Some "id-done") sixty sixty) as (_ & I & _).
    apply I. discriminate.
  - destruct (unused_parameters_ignored m "fast" "poll_tool_result" None (Some "ping")
                None (Some "id-done") None sixty sixty) as (_ & _ & N).
    apply N. by right.
Defined.

Lemma spawned_call_answered_witness :
  let answer := {| content := [echo_block]; isError := false |} in
  let m := machine two_backends [Uuid "id-1"; Deadline false; Called (inr answer)] in
  let r := spawn_run_poll ping_request "slow" m in
  hmap_call_id_to_results (engine (after r)) = delete "id-1" ∅
  ∧ ∃ msg, outcome r
           = inr (Some [text_block
                          (PStr (error_notice FAILED
                                   (Some (@py_str _ replay (validation_error msg)))))]).
Proof.
  intros answer m r.
  assert (valid_request m ping_request) as V.
  { split; [|reflexivity]. eexists. vm_compute. reflexivity. }
  assert (registered m "slow") as R.
  { eexists. vm_compute. reflexivity. }
  destruct (spawned_call_answered m ping_request "slow" [Called (inr answer)] []
              answer V R eq_refl eq_refl) as (T & _ & _ & _ & F).
  split; [exact T|].
  apply (F echo_block); [by left | reflexivity].
Defined.

Lemma spawned_call_fails_witness :
  let m := machine two_backends
             [Uuid "id-1"; Deadline false; Called (inl connection_closed)] in
  outcome (spawn_run_poll ping_request "slow" m)
  = inr (Some [text_block
                 (PStr "Status: BackgroundToolCallStatus.FAILED. Error Message: Connection closed")]).
Proof.
  intros m.
  assert (valid_request m ping_request) as V.
  { split; [|reflexivity]. eexists. vm_compute. reflexivity. }
  assert (registered m "slow") as R.
  { eexists. vm_compute. reflexivity. }
  destruct (spawned_call_fails m ping_request "slow"
              [Called (inl connection_closed)] [] connection_closed
              V R eq_refl eq_refl eq_refl) as (O & _).
  exact O.
Defined.

Lemma spawned_call_times_out_witness :
  let m := machine two_backends [Uuid "id-1"; Deadline true] in
  outcome (spawn_run_poll ping_request "fast" m)
  = inr (Some [text_block
                 (PStr "Status: BackgroundToolCallStatus.TIMEOUT. Error Message: Tool execution exceeded timeout of 60.0 seconds.")]).
Proof.
  intros m.
  assert (valid_request m ping_request) as V.
  { split; [|reflexivity]. eexists. vm_compute. reflexivity. }
  assert (registered m "fast") as R.
  { eexists. vm_compute. reflexivity. }
  destruct (spawned_call_times_out m ping_request "fast" [] V R eq_refl) as (O & _).
  exact O.
Defined.

Lemma spawn_then_shutdown_witness :
  let m := machine two_backends [Uuid "id-1"] in
  let r := aexit None (after (spawn ping_request m)) in
  hmap_call_id_to_results (engine (after r)) !! "id-1" = Some pending_record
  ∧ EvCancel "id-1" ∈ events r.
Proof.
  intros m r.
  assert (valid_request m ping_request) as V.
  { split; [|reflexivity]. eexists. vm_compute. reflexivity. }
  destruct (spawn_then_shutdown m ping_request None V) as (T & _ & C & _).
  split; [exact T | exact C].
Defined.

End FurtherRuns.
